(** * WebBotX: the page-object layer of [src/page/Page.ts]

    A shallow embedding of [PageElement] (a locator with a bounded
    wait-and-retry resolution and thirteen element actions), of
    [PageElements] (access to the set of elements a locator matches), of
    the selector classes and finders built on them, of the example page,
    and of [truncateFilePath] of [utils/stringUtil.ts].

    The browser is not part of the repository.  It is modelled as a
    deterministic oracle: every command sent through selenium-webdriver is
    appended to a log, and the answer to a command is a function of the log
    so far and of the command.  Asynchronous methods become computations in
    a state-and-exception monad over that log.

    JavaScript numbers are modelled by [Z]: configurations and indices that
    are not integers are outside the model. *)

From Stdlib Require Import ZArith List String Ascii Bool Lia DecimalString.
Import ListNotations.

Local Open Scope string_scope.
Local Open Scope Z_scope.

(** ** JavaScript values used by the page layer *)

Module Js.

(** Line feed and the double quote, as one-character strings. *)
Definition nl : string := String (ascii_of_nat 10) EmptyString.
Definition dquote : string := String (ascii_of_nat 34) EmptyString.

(** An exception value.  Everything thrown in [Page.ts], and every
    rejection of selenium-webdriver, is an [Error] object: a name and a
    message. *)
Record Thrown : Type := mkThrown { name : string; message : string }.

(** [new Error(message)] *)
Definition Error (msg : string) : Thrown :=
  {| name := "Error"; message := msg |}.

(** The [TypeError] the runtime raises for [undefined.prop]. *)
Definition TypeError_undefined (prop : string) : Thrown :=
  {| name := "TypeError";
     message := "Cannot read properties of undefined (reading '" ++ prop ++ "')" |}.

(** [Error.prototype.toString], which a template literal applies to an
    interpolated error. *)
Definition toString (t : Thrown) : string :=
  match name t, message t with
  | EmptyString, m => m
  | n, EmptyString => n
  | n, m => n ++ ": " ++ m
  end.

(** An interpolated integer, with all its digits.  This is what
    JavaScript prints for the safe integers (up to
    [Number.MAX_SAFE_INTEGER] in absolute value); larger numbers are
    rounded, and printed in exponent form from 1e21 on, which [num] does
    not follow. *)
Definition num (z : Z) : string := NilZero.string_of_int (Z.to_int z).

(** An interpolated string that may be [undefined]. *)
Definition str (s : option string) : string :=
  match s with
  | Some s => s
  | None => "undefined"
  end.

(** A property slot of an object literal: the key is missing, or it is an
    own property whose value may be [undefined] ([None]). *)
Inductive Slot (A : Type) : Type :=
| Absent
| Own (v : option A).
Arguments Absent {A}.
Arguments Own {A} v.

(** Reading a property: a missing key reads as [undefined]. *)
Definition read {A} (s : Slot A) : option A :=
  match s with
  | Absent => None
  | Own v => v
  end.

(** One key of [Object.assign(target, source)]: own properties of the
    source are copied, also when their value is [undefined]. *)
Definition assign_slot {A} (target source : Slot A) : Slot A :=
  match source with
  | Absent => target
  | Own v => Own v
  end.

(** A destructuring default, [{ k = d }]: it applies to [undefined]. *)
Definition or_default {A} (d : A) (v : option A) : A :=
  match v with
  | Some a => a
  | None => d
  end.

(** [array[i]]: [undefined] outside [0 .. length-1]. *)
Definition at_index {A} (l : list A) (i : Z) : option A :=
  if i <? 0 then None else nth_error l (Z.to_nat i).

(** [s.includes(t)] *)
Fixpoint starts_with (t s : string) : bool :=
  match t, s with
  | EmptyString, _ => true
  | String a t', String b s' => Ascii.eqb a b && starts_with t' s'
  | String _ _, EmptyString => false
  end.

Fixpoint includes (t s : string) : bool :=
  starts_with t s ||
  match s with
  | EmptyString => false
  | String _ s' => includes t s'
  end.

(** A settled promise: fulfilled with a value or rejected with a reason. *)
Inductive Outcome (A : Type) : Type :=
| Resolved (a : A)
| Rejected (reason : Thrown).
Arguments Resolved {A} a.
Arguments Rejected {A} reason.

(** A value of type [A | Promise<A>]. *)
Inductive MaybePromise (A : Type) : Type :=
| Plain (a : A)
| Promised (o : Outcome A).
Arguments Plain {A} a.
Arguments Promised {A} o.

End Js.
Import Js.

(** ** The selenium-webdriver boundary *)

(** An element handle is opaque. *)
Definition WebElement : Type := nat.

(** [By]: the locators the page layer builds, [By.css] and [By.xpath]. *)
Record Locator : Type := mkBy { by_using : string; by_value : string }.

Definition By_css (selector : string) : Locator :=
  {| by_using := "css selector"; by_value := selector |}.

Definition By_xpath (selector : string) : Locator :=
  {| by_using := "xpath"; by_value := selector |}.

(** [By.prototype.toString], used when a locator is interpolated. *)
Definition By_toString (l : Locator) : string :=
  "By(" ++ by_using l ++ ", " ++ by_value l ++ ")".

(** The commands [Page.ts] sends, indexed by the type of their answer. *)
Inductive Command : Type -> Type :=
| WaitElementLocated (l : Locator) (timeout : Z) (msg : option string)
    : Command WebElement
| WaitElementIsVisible (e : option WebElement) (timeout : Z) (msg : string)
    : Command unit
| FindElements (l : Locator) : Command (list WebElement)
| ElemClick (e : WebElement) : Command unit
| ActionsContextClick (e : option WebElement) : Command unit
| ActionsDoubleClick (e : option WebElement) : Command unit
| ActionsMove (origin : option WebElement) : Command unit
| ElemSendKeys (e : WebElement) (text : string) : Command unit
| ElemClear (e : WebElement) : Command unit
| ElemGetAttribute (e : WebElement) (attributeName : string) : Command string
| ElemGetText (e : WebElement) : Command string
| ElemGetTagName (e : WebElement) : Command string
| ElemIsEnabled (e : WebElement) : Command bool
| ElemIsSelected (e : WebElement) : Command bool
| ElemIsDisplayed (e : WebElement) : Command bool.

Definition Event : Type := { A : Type & Command A }.
Definition ev {A} (c : Command A) : Event := existT Command A c.
Definition Log : Type := list Event.

(** The browser: how a command issued after a given history settles, and
    the logical time at which the work that produced a given history
    settles (it only matters for commands in flight together). *)
Record Browser : Type := mkBrowser {
  respond : forall A, Log -> Command A -> Outcome A;
  settles_at : Log -> nat
}.

Definition is_locate_wait (e : Event) : bool :=
  match projT2 e with
  | WaitElementLocated _ _ _ => true
  | _ => false
  end.

Definition is_visibility_wait (e : Event) : bool :=
  match projT2 e with
  | WaitElementIsVisible _ _ _ => true
  | _ => false
  end.

Definition is_click (x : WebElement) (e : Event) : bool :=
  match projT2 e with
  | ElemClick y => Nat.eqb x y
  | _ => false
  end.

Definition locate_waits (l : Log) : nat := List.length (filter is_locate_wait l).
Definition visibility_waits (l : Log) : nat := List.length (filter is_visibility_wait l).
Definition clicks_on (x : WebElement) (l : Log) : nat := List.length (filter (is_click x) l).

(** ** Asynchronous computations *)

Definition Async (A : Type) : Type := Log -> Outcome A * Log.

Definition ret {A} (a : A) : Async A := fun s => (Resolved a, s).

Definition throw {A} (t : Thrown) : Async A := fun s => (Rejected t, s).

Definition bind {A B} (m : Async A) (k : A -> Async B) : Async B :=
  fun s =>
    match m s with
    | (Resolved a, s') => k a s'
    | (Rejected t, s') => (Rejected t, s')
    end.

(** [try { m } catch (err) { handler err }] *)
Definition try_catch {A} (m : Async A) (handler : Thrown -> Async A) : Async A :=
  fun s =>
    match m s with
    | (Resolved a, s') => (Resolved a, s')
    | (Rejected t, s') => handler t s'
    end.

(** Runs [m] and hands back how it settled, for a [try] whose body leaves
    the enclosing loop by [break]. *)
Definition settle {A} (m : Async A) : Async (Outcome A) :=
  fun s => let (o, s') := m s in (Resolved o, s').

(** [await v] for [v : A | Promise<A>] *)
Definition await {A} (v : MaybePromise A) : Async A :=
  match v with
  | Plain a => ret a
  | Promised (Resolved a) => ret a
  | Promised (Rejected t) => throw t
  end.

Declare Scope async_scope.
Delimit Scope async_scope with async.
Notation "x <- m ;; k" := (bind m (fun x => k))
  (at level 100, m at next level, right associativity) : async_scope.
Notation "m ;;; k" := (bind m (fun _ => k))
  (at level 100, right associativity) : async_scope.
Local Open Scope async_scope.

(** ** The configuration of a page element *)

Record PageElementConfiguration : Type := mkConfig {
  retires : Slot Z;
  timeout : Slot Z;
  describe : Slot string;
  index : Slot Z;
  element : Slot (MaybePromise WebElement)
}.

Definition DEFAULT_CONFIGURATION : PageElementConfiguration :=
  {| retires := Own (Some 1);
     timeout := Own (Some 5000);
     describe := Own (Some "找不到定位元素");
     index := Own (Some 0);
     element := Own None |}.

(** The object literal [{}]. *)
Definition empty_object : PageElementConfiguration :=
  {| retires := Absent; timeout := Absent; describe := Absent;
     index := Absent; element := Absent |}.

(** [Object.assign(target, source)] on configurations. *)
Definition Object_assign (target source : PageElementConfiguration)
  : PageElementConfiguration :=
  {| retires := assign_slot (retires target) (retires source);
     timeout := assign_slot (timeout target) (timeout source);
     describe := assign_slot (describe target) (describe source);
     index := assign_slot (index target) (index source);
     element := assign_slot (element target) (element source) |}.

(** ** [class PageElement] *)

Record PageElement : Type := mkPageElement {
  locator : Locator;
  config : PageElementConfiguration
}.

(** The constructor: the parameter [config] defaults to
    [DEFAULT_CONFIGURATION], and the stored configuration is
    [Object.assign({}, DEFAULT_CONFIGURATION, config)]. *)
Definition new_PageElement (l : Locator) (cfg : option PageElementConfiguration)
  : PageElement :=
  let config := or_default DEFAULT_CONFIGURATION cfg in
  {| locator := l;
     config := Object_assign (Object_assign empty_object DEFAULT_CONFIGURATION) config |}.

Section WithBrowser.

Variable browser : Browser.

(** Sends a command and awaits its answer. *)
Definition call {A} (c : Command A) : Async A :=
  fun s => (respond browser A s c, (s ++ [ev c])%list).

(** [elem.m(...)]: a method call on a value that may be [undefined]. *)
Definition method {A} (elem : option WebElement) (m : string)
    (c : WebElement -> Command A) : Async A :=
  match elem with
  | Some e => call (c e)
  | None => throw (TypeError_undefined m)
  end.

Section FindElement.

Variable this : PageElement.

(** The destructured locals of [findElement]. *)
Definition retires_of : Z := or_default 1 (read (retires (config this))).
Definition timeout_of : Z := or_default 5000 (read (timeout (config this))).
Definition describe_of : option string := read (describe (config this)).

Definition locate_wait : Command WebElement :=
  WaitElementLocated (locator this) timeout_of describe_of.

Definition visibility_wait (elem : option WebElement) : Command unit :=
  WaitElementIsVisible elem timeout_of
    ("Element is not visible: " ++ str describe_of).

Definition locate_error : Thrown :=
  Error ("Failed to find element using " ++ By_toString (locator this)
         ++ ", describe: " ++ str describe_of).

Definition visibility_error : Thrown :=
  Error ("Element is not visible: " ++ str describe_of).

(** The first loop, [for (let i = 0; i < retires; i++)]: [todo] is the
    number of iterations that remain, [Z.to_nat (retires - i)].  The
    result is the local [elem], [undefined] when no iteration ran. *)
Fixpoint locate_loop (todo : nat) (i : Z) : Async (option WebElement) :=
  match todo with
  | O => ret None
  | S todo' =>
      r <- settle (call locate_wait) ;;
      match r with
      | Resolved elem => ret (Some elem)
      | Rejected _ =>
          if i =? retires_of - 1
          then throw locate_error
          else locate_loop todo' (i + 1)
      end
  end.

(** The second loop, [for (let i = 0; i <= retires; i++)], with
    [Z.to_nat (retires + 1 - i)] iterations remaining. *)
Fixpoint visibility_loop (elem : option WebElement) (todo : nat) (i : Z)
  : Async unit :=
  match todo with
  | O => ret tt
  | S todo' =>
      r <- settle (call (visibility_wait elem)) ;;
      match r with
      | Resolved _ => ret tt
      | Rejected _ =>
          if i =? retires_of - 1
          then throw visibility_error
          else visibility_loop elem todo' (i + 1)
      end
  end.

(** [findElement].  The test [retires !== undefined] always holds,
    since the destructuring gave [retires] the default 1. *)
Definition findElement : Async (option WebElement) :=
  elem <- locate_loop (Z.to_nat retires_of) 0 ;;
  visibility_loop elem (Z.to_nat (retires_of + 1)) 0 ;;;
  ret elem.

Definition getElement : Async (option WebElement) :=
  match read (element (config this)) with
  | Some promised => elem <- await promised ;; ret (Some elem)
  | None => findElement
  end.

End FindElement.

(** *** The thirteen element actions *)

Section Actions.

Variable this : PageElement.

Definition click : Async unit :=
  elem <- getElement this ;;
  try_catch (method elem "click" ElemClick)
    (fun error => throw (Error
       ("Failed to click on element: " ++ By_toString (locator this)
        ++ nl ++ " " ++ toString error))).

Definition contextClick : Async unit :=
  elem <- getElement this ;;
  try_catch (call (ActionsContextClick elem))
    (fun error => throw (Error
       ("Failed to perform right-click on element: "
        ++ By_toString (locator this) ++ nl ++ " " ++ toString error))).

Definition doubleClick : Async unit :=
  elem <- getElement this ;;
  try_catch (call (ActionsDoubleClick elem))
    (fun error => throw (Error
       ("Failed to perform doubleClick on element: "
        ++ By_toString (locator this) ++ nl ++ " " ++ toString error))).

Definition hover : Async unit :=
  elem <- getElement this ;;
  try_catch (call (ActionsMove elem))
    (fun error => throw (Error
       ("Failed to hover over element: " ++ By_toString (locator this)
        ++ nl ++ toString error))).

Definition sendKeys (text : string) : Async unit :=
  elem <- getElement this ;;
  try_catch (method elem "sendKeys" (fun e => ElemSendKeys e text))
    (fun error => throw (Error
       ("Failed to send keys to element: " ++ By_toString (locator this)
        ++ nl ++ toString error))).

Definition clear : Async unit :=
  elem <- getElement this ;;
  try_catch (method elem "clear" ElemClear)
    (fun error => throw (Error
       ("Failed to clear element: " ++ By_toString (locator this)
        ++ nl ++ toString error))).

Definition getAttribute (attributeName : string) : Async string :=
  elem <- getElement this ;;
  try_catch (method elem "getAttribute" (fun e => ElemGetAttribute e attributeName))
    (fun error => throw (Error
       ("Failed to get attribute " ++ dquote ++ attributeName ++ dquote
        ++ " from element: " ++ By_toString (locator this)
        ++ nl ++ toString error))).

Definition getText : Async string :=
  elem <- getElement this ;;
  try_catch (method elem "getText" ElemGetText)
    (fun error => throw (Error
       ("Failed to get text from element: " ++ By_toString (locator this)
        ++ nl ++ toString error))).

Definition getTagName : Async string :=
  elem <- getElement this ;;
  try_catch (method elem "getTagName" ElemGetTagName)
    (fun error => throw (Error
       ("Failed to get tag name of element: " ++ By_toString (locator this)
        ++ nl ++ toString error))).

Definition getTextarea : Async string :=
  elem <- getElement this ;;
  try_catch (method elem "getAttribute" (fun e => ElemGetAttribute e "value"))
    (fun error => throw (Error
       ("Failed to get text from textarea element: "
        ++ By_toString (locator this) ++ nl ++ toString error))).

Definition isEnabled : Async bool :=
  elem <- getElement this ;;
  try_catch (method elem "isEnabled" ElemIsEnabled)
    (fun error => throw (Error
       ("Failed to check if element is enabled: "
        ++ By_toString (locator this) ++ nl ++ toString error))).

Definition isSelected : Async bool :=
  elem <- getElement this ;;
  try_catch (method elem "isSelected" ElemIsSelected)
    (fun error => throw (Error
       ("Failed to check if element is selected: "
        ++ By_toString (locator this) ++ nl ++ toString error))).

Definition isDisplayed : Async bool :=
  elem <- getElement this ;;
  try_catch (method elem "isDisplayed" ElemIsDisplayed)
    (fun error => throw (Error
       ("Failed to check if element is displayed: "
        ++ By_toString (locator this) ++ nl ++ toString error))).

End Actions.

End WithBrowser.

(** ** [class PageElements] *)

Module PageElements.

(** A promise that has been started: how it settles, and when. *)
Record Promise (A : Type) : Type := mkPromise {
  outcome : Outcome A;
  settled : nat
}.
Arguments mkPromise {A} outcome settled.
Arguments outcome {A} p.
Arguments settled {A} p.

(** The rejection that settles first, the leftmost one among equals. *)
Fixpoint first_rejection {A} (ps : list (Promise A)) : option (nat * Thrown) :=
  match ps with
  | [] => None
  | p :: ps' =>
      match outcome p, first_rejection ps' with
      | Resolved _, r => r
      | Rejected t, None => Some (settled p, t)
      | Rejected t, Some (time, t') =>
          if (settled p <=? time)%nat then Some (settled p, t) else Some (time, t')
      end
  end.

Fixpoint fulfilled_values {A} (ps : list (Promise A)) : list A :=
  match ps with
  | [] => []
  | p :: ps' =>
      match outcome p with
      | Resolved a => a :: fulfilled_values ps'
      | Rejected _ => fulfilled_values ps'
      end
  end.

(** [Promise.all]: rejected with the reason of the first promise to
    reject, fulfilled with all the values when none does. *)
Definition Promise_all {A} (ps : list (Promise A)) : MaybePromise (list A) :=
  match first_rejection ps with
  | Some (_, reason) => Promised (Rejected reason)
  | None => Promised (Resolved (fulfilled_values ps))
  end.

Section WithBrowser.

Variable browser : Browser.

(** Calling an async function: its body runs, sending its commands, and
    the caller gets a promise without waiting for it. *)
Definition start {A} (m : Async A) : Async (Promise A) :=
  fun s =>
    let (o, s') := m s in
    (Resolved {| outcome := o; settled := settles_at browser s' |}, s').

(** [array.map(async (element, index) => ...)] *)
Fixpoint map_async {A} (f : WebElement -> nat -> Async A)
    (array : list WebElement) (index : nat) : Async (list (Promise A)) :=
  match array with
  | [] => ret []
  | element :: rest =>
      p <- start (f element index) ;;
      ps <- map_async f rest (S index) ;;
      ret (p :: ps)
  end.

Variable locator : Locator.

(** [elements]: the promise of [findElements] is returned from inside
    the [try] without being awaited there, so its rejection is not
    intercepted by the [catch]. *)
Definition elements : Async (list WebElement) :=
  call browser (FindElements locator).

Definition length : Async Z :=
  elements <- elements ;;
  ret (Z.of_nat (List.length elements)).

Definition findByIndex (index : Z) : Async (option WebElement) :=
  elements <- elements ;;
  if index >=? Z.of_nat (List.length elements)
  then throw (Error ("Element not found at index " ++ num index))
  else ret (at_index elements index).

Definition first : Async (option WebElement) :=
  elements <- elements ;;
  if Z.of_nat (List.length elements) =? 0
  then throw (Error "No elements found")
  else ret (at_index elements 0).

Definition last : Async (option WebElement) :=
  elements <- elements ;;
  if Z.of_nat (List.length elements) =? 0
  then throw (Error "No elements found")
  else ret (at_index elements (Z.of_nat (List.length elements) - 1)).

(** The callback of [clickAll]. *)
Definition click_one (element : WebElement) (index : nat) : Async unit :=
  try_catch (call browser (ElemClick element))
    (fun err => throw (Error
       ("点击元素失败，索引: " ++ num (Z.of_nat index) ++ "," ++ toString err))).

Definition clickAll : Async unit :=
  try_catch
    (elements <- elements ;;
     promises <- map_async click_one elements 0 ;;
     await (Promise_all promises) ;;;
     ret tt)
    (fun err => throw (Error ("点击元素失败: " ++ toString err))).

End WithBrowser.

End PageElements.

(** [getElements]: the element set on the locator of the page element; a
    [PageElements] is given by its locator. *)
Definition getElements (this : PageElement) : Locator := locator this.

(** ** The actions as one family *)

Inductive Action : Type :=
| Click | ContextClick | DoubleClick | Hover
| SendKeys (text : string) | Clear
| GetAttribute (attributeName : string) | GetText | GetTagName | GetTextarea
| IsEnabled | IsSelected | IsDisplayed.

(** What an action hands back: nothing, a string or a boolean. *)
Inductive Answer : Type :=
| Void
| Text (s : string)
| Flag (b : bool).

Definition void (m : Async unit) : Async Answer := m ;;; ret Void.
Definition text (m : Async string) : Async Answer := s <- m ;; ret (Text s).
Definition flag (m : Async bool) : Async Answer := b <- m ;; ret (Flag b).

(** The method of [PageElement] that implements an action. *)
Definition perform (browser : Browser) (this : PageElement) (a : Action)
  : Async Answer :=
  match a with
  | Click => void (click browser this)
  | ContextClick => void (contextClick browser this)
  | DoubleClick => void (doubleClick browser this)
  | Hover => void (hover browser this)
  | SendKeys t => void (sendKeys browser this t)
  | Clear => void (clear browser this)
  | GetAttribute n => text (getAttribute browser this n)
  | GetText => text (getText browser this)
  | GetTagName => text (getTagName browser this)
  | GetTextarea => text (getTextarea browser this)
  | IsEnabled => flag (isEnabled browser this)
  | IsSelected => flag (isSelected browser this)
  | IsDisplayed => flag (isDisplayed browser this)
  end.

(** The browser operation an action runs on the resolved element. *)
Definition browser_action (browser : Browser) (a : Action)
    (elem : option WebElement) : Async Answer :=
  match a with
  | Click => void (method browser elem "click" ElemClick)
  | ContextClick => void (call browser (ActionsContextClick elem))
  | DoubleClick => void (call browser (ActionsDoubleClick elem))
  | Hover => void (call browser (ActionsMove elem))
  | SendKeys t => void (method browser elem "sendKeys" (fun e => ElemSendKeys e t))
  | Clear => void (method browser elem "clear" ElemClear)
  | GetAttribute n =>
      text (method browser elem "getAttribute" (fun e => ElemGetAttribute e n))
  | GetText => text (method browser elem "getText" ElemGetText)
  | GetTagName => text (method browser elem "getTagName" ElemGetTagName)
  | GetTextarea =>
      text (method browser elem "getAttribute" (fun e => ElemGetAttribute e "value"))
  | IsEnabled => flag (method browser elem "isEnabled" ElemIsEnabled)
  | IsSelected => flag (method browser elem "isSelected" ElemIsSelected)
  | IsDisplayed => flag (method browser elem "isDisplayed" ElemIsDisplayed)
  end.

(** ** Browsers for the scenarios *)

Module Scenario.

Definition timed_out : Thrown :=
  {| name := "TimeoutError"; message := "Wait timed out after 5000ms" |}.

Definition stale (e : WebElement) : Thrown :=
  {| name := "StaleElementReferenceError";
     message := "element " ++ num (Z.of_nat e) ++ " is stale" |}.

(** Every command succeeds; [found] is what the locator matches. *)
Definition fine (found : list WebElement) A (c : Command A) : Outcome A :=
  match c in Command T return Outcome T with
  | WaitElementLocated _ _ _ => Resolved (hd 0%nat found)
  | WaitElementIsVisible _ _ _ => Resolved tt
  | FindElements _ => Resolved found
  | ElemClick _ => Resolved tt
  | ActionsContextClick _ => Resolved tt
  | ActionsDoubleClick _ => Resolved tt
  | ActionsMove _ => Resolved tt
  | ElemSendKeys _ _ => Resolved tt
  | ElemClear _ => Resolved tt
  | ElemGetAttribute _ _ => Resolved "value"
  | ElemGetText _ => Resolved "text"
  | ElemGetTagName _ => Resolved "input"
  | ElemIsEnabled _ => Resolved true
  | ElemIsSelected _ => Resolved false
  | ElemIsDisplayed _ => Resolved true
  end.

(** No element ever appears. *)
Definition never_located : Browser :=
  {| respond := fun A s c =>
       match c in Command T return Outcome T -> Outcome T with
       | WaitElementLocated _ _ _ => fun _ => Rejected timed_out
       | _ => fun o => o
       end (fine [] A c);
     settles_at := fun s => List.length s |}.

(** Element 7 is there; it becomes visible at the visibility check
    number [after] (counted from 0), and never when [after] is [None]. *)
Definition visible_from (after : option nat) : Browser :=
  {| respond := fun A s c =>
       match c in Command T return Outcome T -> Outcome T with
       | WaitElementIsVisible _ _ _ => fun o =>
           match after with
           | Some k => if (k <=? visibility_waits s)%nat then o else Rejected timed_out
           | None => Rejected timed_out
           end
       | _ => fun o => o
       end (fine [7%nat] A c);
     settles_at := fun s => List.length s |}.

(** The locator matches [found]; a click fails on the elements of
    [broken]; a command sent earlier settles earlier. *)
Definition clicking (found broken : list WebElement) : Browser :=
  {| respond := fun A s c =>
       match c in Command T return Outcome T -> Outcome T with
       | ElemClick e => fun o =>
           if existsb (Nat.eqb e) broken then Rejected (stale e) else o
       | _ => fun o => o
       end (fine found A c);
     settles_at := fun s => List.length s |}.

Definition kw : Locator := By_css "#kw".

Definition with_retires (n : Z) : PageElementConfiguration :=
  {| retires := Own (Some n); timeout := Absent; describe := Absent;
     index := Absent; element := Absent |}.

End Scenario.

(** ** [class CSSPageElement], [class XpathPageElement], [class Page] *)

Module CSSPageElement.

(** A CSS page element: its [selector] and the [PageElement] it extends. *)
Record t : Type := mk { selector : string; super : PageElement }.

(** The constructor; [selector] defaults to the empty string. *)
Definition new (selector : option string)
    (config : option PageElementConfiguration) : t :=
  let selector := or_default EmptyString selector in
  {| selector := selector;
     super := new_PageElement (By_css selector) config |}.

Definition id (this : t) (id : string)
    (config : option PageElementConfiguration) : t :=
  new (Some (selector this ++ " #" ++ id)) config.

Definition className (this : t) (className : string)
    (config : option PageElementConfiguration) : t :=
  new (Some (selector this ++ " ." ++ className)) config.

Definition tag (this : t) (tag : string)
    (config : option PageElementConfiguration) : t :=
  new (Some (selector this ++ " " ++ tag)) config.

Definition attributes (this : t) (key value : string)
    (config : option PageElementConfiguration) : t :=
  new (Some (selector this ++ " [" ++ key ++ "= '" ++ value ++ "']")) config.

Definition css (this : t) (css : string)
    (config : option PageElementConfiguration) : t :=
  new (Some (selector this ++ " " ++ css)) config.

End CSSPageElement.

Module XpathPageElement.

Record t : Type := mk { selector : string; super : PageElement }.

Definition new (selector : option string)
    (config : option PageElementConfiguration) : t :=
  let selector := or_default EmptyString selector in
  {| selector := selector;
     super := new_PageElement (By_xpath selector) config |}.

Definition xpath (this : t) (selector' : string)
    (config : option PageElementConfiguration) : t :=
  new (Some (selector this ++ selector')) config.

End XpathPageElement.

Module Page.

Definition findById (id : string) (config : option PageElementConfiguration)
  : CSSPageElement.t :=
  CSSPageElement.new (Some ("#" ++ id)) config.

Definition findByClassName (className : string)
    (config : option PageElementConfiguration) : CSSPageElement.t :=
  CSSPageElement.new (Some ("." ++ className)) config.

Definition findByTag (tag : string) (config : option PageElementConfiguration)
  : CSSPageElement.t :=
  CSSPageElement.new (Some tag) config.

Definition attributes (key value : string)
    (config : option PageElementConfiguration) : CSSPageElement.t :=
  CSSPageElement.attributes (CSSPageElement.new None None) key value config.

Definition findByCss (selector : string)
    (config : option PageElementConfiguration) : CSSPageElement.t :=
  CSSPageElement.new (Some selector) config.

Definition findByXPath (selector : string)
    (config : option PageElementConfiguration) : XpathPageElement.t :=
  XpathPageElement.new (Some selector) config.

End Page.

(** ** The example page and its options *)

Module examplePage.

Definition searchInput : CSSPageElement.t := Page.findById "kw" None.
Definition searchButton : CSSPageElement.t := Page.findById "su1" None.

End examplePage.

Module exampleOptions.

Definition search (browser : Browser) (keyword : string) : Async unit :=
  sendKeys browser (CSSPageElement.super examplePage.searchInput) keyword ;;;
  click browser (CSSPageElement.super examplePage.searchButton).

End exampleOptions.

(** A browser in which the search for the elements fails. *)
Definition no_session : Browser :=
  {| respond := fun A s c =>
       match c in Command T return Outcome T -> Outcome T with
       | FindElements _ => fun _ =>
           Rejected {| name := "NoSuchSessionError"; message := "invalid session id" |}
       | _ => fun o => o
       end (Scenario.fine [] A c);
     settles_at := fun s => List.length s |}.

(** A browser in which element 7 is there and visible but takes no keys. *)
Definition read_only : Browser :=
  {| respond := fun A s c =>
       match c in Command T return Outcome T -> Outcome T with
       | ElemSendKeys _ _ => fun _ =>
           Rejected {| name := "ElementNotInteractableError";
                       message := "element not interactable" |}
       | _ => fun o => o
       end (Scenario.fine [7%nat] A c);
     settles_at := fun s => List.length s |}.

(** A browser in which element 7 appears at the locate wait number
    [after] (counted from 0) and is visible at once. *)
Definition appears_from (after : nat) : Browser :=
  {| respond := fun A s c =>
       match c in Command T return Outcome T -> Outcome T with
       | WaitElementLocated _ _ _ => fun o =>
           if (after <=? locate_waits s)%nat then o else Rejected Scenario.timed_out
       | _ => fun o => o
       end (Scenario.fine [7%nat] A c);
     settles_at := fun s => List.length s |}.

(** ** [utils/stringUtil.ts] *)

Module stringUtil.

(** [s.split(sep)] for a separator that is not empty: the string is
    scanned from the left; at a position where [sep] starts, the piece
    read so far is closed and the scan goes on behind the separator
    ([skip] counts the characters of the separator still to pass). *)
Fixpoint split_scan (sep : string) (skip : nat) (s piece : string)
  : list string :=
  match s with
  | EmptyString => [piece]
  | String c s' =>
      match skip with
      | S k => split_scan sep k s' piece
      | O =>
          if starts_with sep s
          then piece :: split_scan sep (String.length sep - 1) s' EmptyString
          else split_scan sep 0 s' (piece ++ String c EmptyString)
      end
  end.

(** [s.split(sep)]; an empty separator cuts between all characters. *)
Definition split (s sep : string) : list string :=
  match sep with
  | EmptyString => map (fun c => String c EmptyString) (list_ascii_of_string s)
  | String _ _ => split_scan sep 0 s EmptyString
  end.

(** [!s] for a string: only the empty string is falsy. *)
Definition falsy (s : string) : bool :=
  match s with
  | EmptyString => true
  | String _ _ => false
  end.

(** [truncateFilePath]: [Resolved] is a normal return, [Rejected] a
    throw. *)
Definition truncateFilePath (filePath keyword : string)
  : Outcome (option string) :=
  if falsy filePath || falsy keyword
  then Rejected (Error "File path and keyword must be provided.")
  else
    let temp := split filePath keyword in
    if Z.of_nat (List.length temp) =? 1
    then Rejected (Error "Keyword not found in the file path.")
    else Resolved (at_index temp (Z.of_nat (List.length temp) - 1)).

End stringUtil.

(** ** Vocabulary of the properties *)

(** [Number.MAX_SAFE_INTEGER], 2^53 - 1: up to it, in absolute value,
    every integer is a JavaScript number and is interpolated with all its
    digits. *)
Definition MAX_SAFE_INTEGER : Z := 9007199254740991.


(** What the merge leaves in one slot: the caller's own property when
    there is one, the default otherwise. *)
Definition supplied_or {A} (default : option A) (supplied : Slot A) : Slot A :=
  match supplied with
  | Absent => Own default
  | Own v => Own v
  end.

(** The first [k] waits for the element after [s] fail. *)
Definition unlocated_for (browser : Browser) (this : PageElement)
    (k : nat) (s : Log) : Prop :=
  forall j, (j < k)%nat -> exists reason,
    respond browser _
      (s ++ repeat (ev (locate_wait this)) j)%list
      (locate_wait this)
    = Rejected reason.

(** The first [k] visibility checks on [elem] after [s] fail. *)
Definition invisible_for (browser : Browser) (this : PageElement)
    (elem : option WebElement) (k : nat) (s : Log) : Prop :=
  forall j, (j < k)%nat -> exists reason,
    respond browser _
      (s ++ repeat (ev (visibility_wait this elem)) j)%list
      (visibility_wait this elem)
    = Rejected reason.

(** The visibility phase as the specification words it, first half: when
    the element was located and resolution fails, [checks] visibility
    checks were made. *)
Definition gives_up_after_checks
    (browser : Browser) (this : PageElement) (checks : Z) (s : Log) : Prop :=
  forall e s1 reason s2,
    locate_loop browser this (Z.to_nat (retires_of this)) 0 s
    = (Resolved (Some e), s1) ->
    findElement browser this s = (Rejected reason, s2) ->
    Z.of_nat (visibility_waits s2) = Z.of_nat (visibility_waits s1) + checks.

(** Second half: the error of the visibility phase names the locator. *)
Definition visibility_error_names_locator
    (browser : Browser) (this : PageElement) (s : Log) : Prop :=
  forall e s1 reason s2,
    locate_loop browser this (Z.to_nat (retires_of this)) 0 s
    = (Resolved (Some e), s1) ->
    findElement browser this s = (Rejected reason, s2) ->
    includes (By_toString (locator this)) (message reason) = true.

(** The error of an action as the specification words it: when the browser
    operation on the resolved element fails, the action fails with an
    error whose message holds the locator, the configured description and
    the text of the underlying failure. *)
Definition action_error_as_specified
    (browser : Browser) (this : PageElement) (a : Action) (s : Log) : Prop :=
  forall elem s1 reason s2,
    getElement browser this s = (Resolved elem, s1) ->
    browser_action browser a elem s1 = (Rejected reason, s2) ->
    exists m,
      perform browser this a s = (Rejected (Error m), s2)
      /\ includes (By_toString (locator this)) m = true
      /\ includes (str (describe_of this)) m = true
      /\ includes (toString reason) m = true.

(** The clicks on [es], in order. *)
Definition clicks (es : list WebElement) : Log :=
  map (fun e => ev (ElemClick e)) es.

(** The message of the error [click_one] throws. *)
Definition click_one_message (index : nat) (reason : Thrown) : string :=
  "点击元素失败，索引: " ++ num (Z.of_nat index) ++ "," ++ toString reason.

(** The log when the click on the element at [i] is sent. *)
Definition at_click (s : Log) (es : list WebElement) (i : nat) : Log :=
  (s ++ clicks (firstn i es))%list.

(** The click on the element at [i] fails with [reason]. *)
Definition click_fails (browser : Browser) (s : Log) (es : list WebElement)
    (i : nat) (reason : Thrown) : Prop :=
  exists e, nth_error es i = Some e
    /\ respond browser _ (at_click s es i) (ElemClick e) = Rejected reason.

(** When the click on the element at [i] settles. *)
Definition click_settles (browser : Browser) (s : Log) (es : list WebElement)
    (i : nat) : nat :=
  settles_at browser (at_click s es (S i)).

(** The report of [clickAll] as the specification words it: every click
    that fails is listed in the error, with its index and the text of its
    failure. *)
Definition clickAll_lists_every_failure
    (browser : Browser) (loc : Locator) (s : Log) : Prop :=
  forall es i reason,
    respond browser _ s (FindElements loc) = Resolved es ->
    click_fails browser (s ++ [ev (FindElements loc)])%list es i reason ->
    exists t,
      fst (PageElements.clickAll browser loc s) = Rejected t
      /\ includes (num (Z.of_nat i)) (message t) = true
      /\ includes (toString reason) (message t) = true.

(** * Properties *)

(** ** Strings *)

Lemma starts_with_app (t q : string) : starts_with t (t ++ q) = true.
Proof.
  induction t as [|a t IH]; simpl; [reflexivity|].
  now rewrite Ascii.eqb_refl, IH.
Qed.

Lemma includes_prefix (t q : string) : includes t (t ++ q) = true.
Proof.
  destruct t; simpl.
  - destruct q; reflexivity.
  - now rewrite Ascii.eqb_refl, starts_with_app.
Qed.

Lemma includes_refl (t : string) : includes t t = true.
Proof.
  destruct t; simpl; [reflexivity|].
  rewrite Ascii.eqb_refl.
  assert (H : forall u, starts_with u u = true)
    by (induction u; simpl; [|rewrite Ascii.eqb_refl]; auto).
  now rewrite H.
Qed.

Lemma includes_app_r (t p s : string) :
  includes t s = true -> includes t (p ++ s) = true.
Proof.
  intros H; induction p as [|a p IH]; simpl; [exact H|].
  rewrite IH. apply orb_true_r.
Qed.

Ltac includes_tac :=
  repeat first [ apply includes_prefix | apply includes_refl | apply includes_app_r ].

(** ** Logs *)

Lemma app_repeat_snoc {A} (s : list A) (x : A) (n : nat) :
  ((s ++ [x]) ++ repeat x n = s ++ repeat x (S n))%list.
Proof. now rewrite <- app_assoc. Qed.

Lemma app_repeat_end {A} (s : list A) (x : A) (n : nat) :
  ((s ++ repeat x n) ++ [x] = s ++ repeat x (S n))%list.
Proof. now rewrite <- app_assoc, <- repeat_cons. Qed.

Lemma locate_waits_app (s t : Log) :
  locate_waits (s ++ t)%list = (locate_waits s + locate_waits t)%nat.
Proof. unfold locate_waits. now rewrite filter_app, length_app. Qed.

Lemma visibility_waits_app (s t : Log) :
  visibility_waits (s ++ t)%list = (visibility_waits s + visibility_waits t)%nat.
Proof. unfold visibility_waits. now rewrite filter_app, length_app. Qed.

Lemma length_filter_repeat (f : Event -> bool) (x : Event) (n : nat) :
  f x = true -> List.length (filter f (repeat x n)) = n.
Proof.
  intros H; induction n as [|n IH]; simpl; [reflexivity|].
  rewrite H; simpl; now rewrite IH.
Qed.

(** ** The configuration *)

(** C9.  The configuration a page element stores takes, for every field the
    caller leaves out, the default (retires 1, timeout 5000, the generic
    description, index 0, no preset element), and for every field the
    caller supplies, the caller's value; a page element built without a
    configuration stores the defaults. *)
Theorem constructor_merges_defaults (l : Locator) (c : PageElementConfiguration) :
  let merged := config (new_PageElement l (Some c)) in
  retires merged = supplied_or (Some 1) (retires c) /\
  timeout merged = supplied_or (Some 5000) (timeout c) /\
  describe merged = supplied_or (Some "找不到定位元素") (describe c) /\
  index merged = supplied_or (Some 0) (index c) /\
  element merged = supplied_or None (element c) /\
  config (new_PageElement l None) = DEFAULT_CONFIGURATION.
Proof.
  destruct c as [[|r] [|t] [|d] [|i] [|e]]; cbn; intuition reflexivity.
Qed.

(** ** The locate phase *)

Section LocatePhase.

Variable browser : Browser.
Variable this : PageElement.

Let attempt : Event := ev (locate_wait this).

Lemma unlocated_for_tail (k : nat) (s : Log) :
  unlocated_for browser this (S k) s ->
  unlocated_for browser this k (s ++ [attempt])%list.
Proof.
  intros H j Hj. destruct (H (S j)) as [reason E]; [lia|].
  exists reason. now rewrite app_repeat_snoc.
Qed.

(** When every remaining attempt fails, the loop sends them all and throws
    in the iteration [retires - 1]. *)
Lemma locate_loop_exhausted (todo : nat) :
  forall (i : Z) (s : Log),
    (1 <= todo)%nat ->
    i + Z.of_nat todo = retires_of this ->
    unlocated_for browser this todo s ->
    locate_loop browser this todo i s
    = (Rejected (locate_error this), (s ++ repeat attempt todo)%list).
Proof.
  induction todo as [|todo IH]; intros i s Hpos Hi Hfail; [lia|].
  cbn [locate_loop]. unfold bind, settle, call.
  destruct (Hfail 0%nat) as [reason E]; [lia|].
  cbn [repeat] in E. rewrite app_nil_r in E. rewrite E.
  destruct todo as [|todo].
  - replace (i =? retires_of this - 1) with true
      by (symmetry; apply Z.eqb_eq; lia).
    reflexivity.
  - replace (i =? retires_of this - 1) with false
      by (symmetry; apply Z.eqb_neq; lia).
    fold attempt.
    rewrite IH by (try apply unlocated_for_tail; auto; lia).
    now rewrite app_repeat_snoc.
Qed.

End LocatePhase.

(** C1.  With [retires = n >= 1] and a browser in which each of the [n]
    waits for the element fails, [findElement] sends exactly those [n]
    locate waits and nothing else, and then fails with the error that
    names the locator and the configured description. *)
Theorem findElement_locate_attempts
    (browser : Browser) (this : PageElement) (n : Z) (s : Log) :
  read (retires (config this)) = Some n ->
  1 <= n ->
  (forall j, (j < Z.to_nat n)%nat -> exists reason,
      respond browser _
        (s ++ repeat (ev (locate_wait this)) j)%list
        (locate_wait this)
      = Rejected reason) ->
  findElement browser this s
  = (Rejected (Error ("Failed to find element using "
                      ++ By_toString (locator this) ++ ", describe: "
                      ++ str (read (describe (config this))))),
     (s ++ repeat (ev (locate_wait this)) (Z.to_nat n))%list)
  /\ locate_waits (snd (findElement browser this s))
     = (locate_waits s + Z.to_nat n)%nat
  /\ visibility_waits (snd (findElement browser this s)) = visibility_waits s.
Proof.
  intros Hn Hpos Hfail.
  assert (Hr : retires_of this = n) by (unfold retires_of; now rewrite Hn).
  assert (E : findElement browser this s
              = (Rejected (locate_error this),
                 (s ++ repeat (ev (locate_wait this)) (Z.to_nat n))%list)).
  { unfold findElement, bind. rewrite Hr.
    rewrite (locate_loop_exhausted browser this) by (auto; lia).
    reflexivity. }
  rewrite E; cbn [snd]. split; [reflexivity|].
  rewrite locate_waits_app, visibility_waits_app.
  unfold locate_waits, visibility_waits.
  rewrite length_filter_repeat by reflexivity.
  split; [reflexivity|].
  assert (F : forall k, filter is_visibility_wait (repeat (ev (locate_wait this)) k) = [])
    by (induction k; simpl; auto).
  rewrite F; simpl; lia.
Qed.

Lemma findElement_locate_attempts_witness :
  findElement Scenario.never_located
    (new_PageElement Scenario.kw (Some (Scenario.with_retires 3))) []
  = (Rejected (Error "Failed to find element using By(css selector, #kw), describe: 找不到定位元素"),
     repeat (ev (WaitElementLocated Scenario.kw 5000 (Some "找不到定位元素"))) 3).
Proof.
  refine (proj1 (findElement_locate_attempts Scenario.never_located
                   (new_PageElement Scenario.kw (Some (Scenario.with_retires 3)))
                   3 [] _ _ _)).
  - reflexivity.
  - lia.
  - intros j Hj. exists Scenario.timed_out.
    destruct j as [|[|[|j]]]; [reflexivity | reflexivity | reflexivity |].
    exfalso. simpl in Hj. lia.
Defined.

(** ** The visibility phase *)

Section VisibilityPhase.

Variable browser : Browser.
Variable this : PageElement.
Variable elem : option WebElement.

Let check : Event := ev (visibility_wait this elem).

Lemma invisible_for_tail (k : nat) (s : Log) :
  invisible_for browser this elem (S k) s -> invisible_for browser this elem k (s ++ [check])%list.
Proof.
  intros H j Hj. destruct (H (S j)) as [reason E]; [lia|].
  exists reason. now rewrite app_repeat_snoc.
Qed.

(** Failed checks before the iteration [retires - 1] only move the loop
    on. *)
Lemma visibility_loop_skip (k : nat) :
  forall (todo : nat) (i : Z) (s : Log),
    invisible_for browser this elem k s ->
    i + Z.of_nat k <= retires_of this - 1 ->
    (k <= todo)%nat ->
    visibility_loop browser this elem todo i s
    = visibility_loop browser this elem (todo - k) (i + Z.of_nat k)
        (s ++ repeat check k)%list.
Proof.
  induction k as [|k IH]; intros todo i s Hinv Hi Hk.
  - cbn [repeat]. now rewrite app_nil_r, Nat.sub_0_r, Z.add_0_r.
  - destruct todo as [|todo]; [lia|].
    cbn [visibility_loop]. unfold bind, settle, call.
    destruct (Hinv 0%nat) as [reason E]; [lia|].
    cbn [repeat] in E. rewrite app_nil_r in E. rewrite E.
    replace (i =? retires_of this - 1) with false
      by (symmetry; apply Z.eqb_neq; lia).
    fold check.
    rewrite (IH todo (i + 1) (s ++ [check])%list)
      by (try apply invisible_for_tail; auto; lia).
    rewrite app_repeat_snoc.
    f_equal; lia.
Qed.

(** A check that succeeds ends the loop. *)
Lemma visibility_loop_visible (todo : nat) (i : Z) (s : Log) :
  respond browser _ s (visibility_wait this elem) = Resolved tt ->
  visibility_loop browser this elem (S todo) i s
  = (Resolved tt, (s ++ [check])%list).
Proof.
  intros E. cbn [visibility_loop]. unfold bind, settle, call.
  now rewrite E.
Qed.

(** A check that fails in the iteration [retires - 1] ends the loop with
    the visibility error. *)
Lemma visibility_loop_gives_up (todo : nat) (s : Log) (reason : Thrown) :
  respond browser _ s (visibility_wait this elem) = Rejected reason ->
  visibility_loop browser this elem (S todo) (retires_of this - 1) s
  = (Rejected (visibility_error this), (s ++ [check])%list).
Proof.
  intros E. cbn [visibility_loop]. unfold bind, settle, call.
  now rewrite E, Z.eqb_refl.
Qed.

(** With [retires >= 1]: [k < retires] failed checks followed by a
    successful one let the loop return after [k + 1] checks; [retires]
    failed checks make it throw after [retires] checks. *)
Lemma visibility_loop_outcome (k : nat) (s : Log) :
  1 <= retires_of this ->
  (k <= Z.to_nat (retires_of this))%nat ->
  invisible_for browser this elem k s ->
  ((k < Z.to_nat (retires_of this))%nat ->
   respond browser _ (s ++ repeat check k)%list (visibility_wait this elem)
   = Resolved tt) ->
  visibility_loop browser this elem (Z.to_nat (retires_of this + 1)) 0 s
  = if (k <? Z.to_nat (retires_of this))%nat
    then (Resolved tt, (s ++ repeat check (S k))%list)
    else (Rejected (visibility_error this), (s ++ repeat check k)%list).
Proof.
  intros Hpos Hk Hinv Hvis.
  destruct (Nat.ltb_spec k (Z.to_nat (retires_of this))) as [Hlt|Hge].
  - rewrite (visibility_loop_skip k) by (auto; lia).
    replace (Z.to_nat (retires_of this + 1) - k)%nat
      with (S (Z.to_nat (retires_of this) - k)) by lia.
    rewrite visibility_loop_visible by auto.
    now rewrite app_repeat_end.
  - assert (k = S (Z.to_nat (retires_of this) - 1)) as Ek by lia.
    rewrite Ek in Hinv |- *.
    set (m := (Z.to_nat (retires_of this) - 1)%nat) in *.
    rewrite (visibility_loop_skip m); cycle 1.
    + intros j Hj. apply Hinv. lia.
    + lia.
    + lia.
    + replace (Z.to_nat (retires_of this + 1) - m)%nat with 2%nat by lia.
      replace (0 + Z.of_nat m) with (retires_of this - 1) by lia.
      destruct (Hinv m) as [reason E]; [lia|].
      rewrite (visibility_loop_gives_up _ _ reason E).
      now rewrite app_repeat_end.
Qed.

End VisibilityPhase.

(** [findElement] once the locate phase has produced an element. *)
Lemma findElement_after_located
    (browser : Browser) (this : PageElement) (s s1 : Log) (e : WebElement)
    (k : nat) :
  1 <= retires_of this ->
  locate_loop browser this (Z.to_nat (retires_of this)) 0 s
  = (Resolved (Some e), s1) ->
  (k <= Z.to_nat (retires_of this))%nat ->
  invisible_for browser this (Some e) k s1 ->
  ((k < Z.to_nat (retires_of this))%nat ->
   respond browser _
     (s1 ++ repeat (ev (visibility_wait this (Some e))) k)%list
     (visibility_wait this (Some e)) = Resolved tt) ->
  findElement browser this s
  = if (k <? Z.to_nat (retires_of this))%nat
    then (Resolved (Some e),
          (s1 ++ repeat (ev (visibility_wait this (Some e))) (S k))%list)
    else (Rejected (visibility_error this),
          (s1 ++ repeat (ev (visibility_wait this (Some e))) k)%list).
Proof.
  intros Hpos Hloc Hk Hinv Hvis.
  unfold findElement, bind. rewrite Hloc.
  rewrite (visibility_loop_outcome browser this (Some e) k s1) by assumption.
  destruct (k <? Z.to_nat (retires_of this))%nat; reflexivity.
Qed.

(** With the default [retires = 1] and an element that is there but never
    visible, resolution fails after one visibility check, not after
    [retires + 1 = 2], and its error does not name the locator. *)
Lemma visibility_phase_counterexample :
  let this := new_PageElement Scenario.kw None in
  ~ gives_up_after_checks (Scenario.visible_from None) this
      (retires_of this + 1) []
  /\ ~ visibility_error_names_locator (Scenario.visible_from None) this [].
Proof.
  split; intros H.
  - specialize (H _ _ _ _ eq_refl eq_refl). vm_compute in H. discriminate.
  - specialize (H _ _ _ _ eq_refl eq_refl). vm_compute in H. discriminate.
Qed.

(** C2, amended.  With [retires = n >= 1], after the locate phase has
    produced the element: if the first [k < n] visibility checks fail and
    the next one succeeds, [findElement] returns the handle after those
    [k + 1] checks; if the first [n] checks fail, it fails after exactly
    [n] checks with the error that carries the configured description.  At
    most [n] visibility checks are made. *)
Theorem findElement_visibility_attempts
    (browser : Browser) (this : PageElement) (n : Z) (s s1 : Log)
    (e : WebElement) (k : nat) :
  read (retires (config this)) = Some n ->
  1 <= n ->
  locate_loop browser this (Z.to_nat n) 0 s = (Resolved (Some e), s1) ->
  (k <= Z.to_nat n)%nat ->
  (forall j, (j < k)%nat -> exists reason,
      respond browser _
        (s1 ++ repeat (ev (visibility_wait this (Some e))) j)%list
        (visibility_wait this (Some e)) = Rejected reason) ->
  ((k < Z.to_nat n)%nat ->
   respond browser _
     (s1 ++ repeat (ev (visibility_wait this (Some e))) k)%list
     (visibility_wait this (Some e)) = Resolved tt) ->
  findElement browser this s
  = if (k <? Z.to_nat n)%nat
    then (Resolved (Some e),
          (s1 ++ repeat (ev (visibility_wait this (Some e))) (S k))%list)
    else (Rejected (Error ("Element is not visible: "
                           ++ str (read (describe (config this))))),
          (s1 ++ repeat (ev (visibility_wait this (Some e))) k)%list).
Proof.
  intros Hn Hpos Hloc Hk Hinv Hvis.
  assert (Hr : retires_of this = n) by (unfold retires_of; now rewrite Hn).
  rewrite <- Hr in *.
  now apply findElement_after_located.
Qed.

Lemma findElement_visibility_attempts_witness :
  findElement (Scenario.visible_from None)
    (new_PageElement Scenario.kw (Some (Scenario.with_retires 2))) []
  = (Rejected (Error "Element is not visible: 找不到定位元素"),
     [ev (WaitElementLocated Scenario.kw 5000 (Some "找不到定位元素"));
      ev (WaitElementIsVisible (Some 7%nat) 5000 "Element is not visible: 找不到定位元素");
      ev (WaitElementIsVisible (Some 7%nat) 5000 "Element is not visible: 找不到定位元素")]).
Proof.
  refine (findElement_visibility_attempts (Scenario.visible_from None)
            (new_PageElement Scenario.kw (Some (Scenario.with_retires 2)))
            2 [] [ev (WaitElementLocated Scenario.kw 5000 (Some "找不到定位元素"))]
            7%nat 2 _ _ _ _ _ _).
  - reflexivity.
  - lia.
  - reflexivity.
  - simpl; lia.
  - intros j Hj. exists Scenario.timed_out.
    destruct j as [|[|j]]; [reflexivity | reflexivity | lia].
  - simpl; lia.
Defined.

(** C5.  With [retires = 3] and a located element whose first visibility
    check fails and whose second succeeds, [click] makes exactly two
    visibility checks, clicks the element and succeeds. *)
Theorem click_visible_on_second_check
    (browser : Browser) (this : PageElement) (s s1 : Log) (e : WebElement) :
  read (retires (config this)) = Some 3 ->
  read (element (config this)) = None ->
  locate_loop browser this 3 0 s = (Resolved (Some e), s1) ->
  (exists reason,
      respond browser _ s1 (visibility_wait this (Some e)) = Rejected reason) ->
  respond browser _ (s1 ++ [ev (visibility_wait this (Some e))])%list
    (visibility_wait this (Some e)) = Resolved tt ->
  respond browser _
    (s1 ++ [ev (visibility_wait this (Some e));
            ev (visibility_wait this (Some e))])%list
    (ElemClick e) = Resolved tt ->
  click browser this s
  = (Resolved tt,
     (s1 ++ [ev (visibility_wait this (Some e));
             ev (visibility_wait this (Some e));
             ev (ElemClick e)])%list)
  /\ visibility_waits (snd (click browser this s))
     = (visibility_waits s1 + 2)%nat.
Proof.
  intros Hn Hel Hloc [reason Hfail] Hvis Hclick.
  assert (Hr : retires_of this = 3) by (unfold retires_of; now rewrite Hn).
  assert (E : findElement browser this s
              = (Resolved (Some e),
                 (s1 ++ [ev (visibility_wait this (Some e));
                         ev (visibility_wait this (Some e))])%list)).
  { rewrite (findElement_after_located browser this s s1 e 1);
      rewrite ?Hr; try (simpl; lia); auto.
    intros j Hj. exists reason. replace j with 0%nat by lia.
    cbn [repeat]. now rewrite app_nil_r. }
  assert (C : click browser this s
              = (Resolved tt,
                 (s1 ++ [ev (visibility_wait this (Some e));
                         ev (visibility_wait this (Some e));
                         ev (ElemClick e)])%list)).
  { unfold click, getElement, bind, try_catch, method, call.
    rewrite Hel, E, Hclick. now rewrite <- app_assoc. }
  rewrite C; cbn [snd]. split; [reflexivity|].
  rewrite visibility_waits_app. reflexivity.
Qed.

Lemma click_visible_on_second_check_witness :
  click (Scenario.visible_from (Some 1%nat))
    (new_PageElement Scenario.kw (Some (Scenario.with_retires 3))) []
  = (Resolved tt,
     [ev (WaitElementLocated Scenario.kw 5000 (Some "找不到定位元素"));
      ev (WaitElementIsVisible (Some 7%nat) 5000 "Element is not visible: 找不到定位元素");
      ev (WaitElementIsVisible (Some 7%nat) 5000 "Element is not visible: 找不到定位元素");
      ev (ElemClick 7%nat)]).
Proof.
  refine (proj1 (click_visible_on_second_check
            (Scenario.visible_from (Some 1%nat))
            (new_PageElement Scenario.kw (Some (Scenario.with_retires 3)))
            [] [ev (WaitElementLocated Scenario.kw 5000 (Some "找不到定位元素"))]
            7%nat _ _ _ _ _ _)).
  - reflexivity.
  - reflexivity.
  - reflexivity.
  - exists Scenario.timed_out. reflexivity.
  - reflexivity.
  - reflexivity.
Defined.

(** ** A preset element *)

Ltac unfold_actions :=
  unfold perform, browser_action, void, text, flag,
    click, contextClick, doubleClick, hover, sendKeys, clear, getAttribute,
    getText, getTagName, getTextarea, isEnabled, isSelected, isDisplayed.

(** C4.  When the configuration holds a preset element, [getElement]
    awaits it and returns it without sending anything to the browser, and
    no action sends a locate wait or a visibility wait. *)
Theorem preset_element_skips_waits
    (browser : Browser) (this : PageElement)
    (promised : MaybePromise WebElement) (s : Log) :
  read (element (config this)) = Some promised ->
  getElement browser this s
  = (match promised with
     | Plain e | Promised (Resolved e) => Resolved (Some e)
     | Promised (Rejected reason) => Rejected reason
     end, s)
  /\ forall a : Action, exists sent : Log,
       snd (perform browser this a s) = (s ++ sent)%list
       /\ locate_waits sent = 0%nat
       /\ visibility_waits sent = 0%nat.
Proof.
  intros H.
  assert (G : getElement browser this s
              = (match promised with
                 | Plain e | Promised (Resolved e) => Resolved (Some e)
                 | Promised (Rejected reason) => Rejected reason
                 end, s)).
  { unfold getElement. rewrite H.
    destruct promised as [e|[e|reason]]; reflexivity. }
  split; [exact G|].
  intros a.
  destruct promised as [e|[e|reason]];
    destruct a; unfold_actions; unfold bind, try_catch;
    rewrite G; cbv beta iota; unfold method, call;
    try (exists []; rewrite app_nil_r; repeat split; fail);
    match goal with
    | |- context [respond browser ?A s ?c] =>
        exists [ev c]; destruct (respond browser A s c); repeat split
    end.
Qed.

Lemma preset_element_skips_waits_witness :
  getElement Scenario.never_located
    (new_PageElement Scenario.kw
       (Some {| retires := Absent; timeout := Absent; describe := Absent;
                index := Absent; element := Own (Some (Plain 9%nat)) |})) []
  = (Resolved (Some 9%nat), []).
Proof.
  refine (proj1 (preset_element_skips_waits Scenario.never_located
            (new_PageElement Scenario.kw
               (Some {| retires := Absent; timeout := Absent; describe := Absent;
                        index := Absent; element := Own (Some (Plain 9%nat)) |}))
            (Plain 9%nat) [] _)).
  reflexivity.
Defined.

(** ** Errors of the actions *)

(** A click that fails on a preset element: the message has the locator
    and the failure, and not the description. *)
Lemma action_error_counterexample :
  ~ action_error_as_specified (Scenario.clicking [] [7%nat])
      (new_PageElement Scenario.kw
         (Some {| retires := Absent; timeout := Absent; describe := Absent;
                  index := Absent; element := Own (Some (Plain 7%nat)) |}))
      Click [].
Proof.
  intros H.
  destruct (H (Some 7%nat) [] (Scenario.stale 7%nat) [ev (ElemClick 7%nat)]
              eq_refl eq_refl) as (m & E & _ & D & _).
  vm_compute in E. injection E as <-.
  vm_compute in D. discriminate.
Qed.

(** C6, amended.  For each of the thirteen actions, when the browser
    operation on the resolved element fails, the action fails with an
    error whose message holds the locator and the text of the underlying
    failure. *)
Theorem action_error_embeds_locator_and_failure
    (browser : Browser) (this : PageElement) (a : Action)
    (s s1 s2 : Log) (elem : option WebElement) (reason : Thrown) :
  getElement browser this s = (Resolved elem, s1) ->
  browser_action browser a elem s1 = (Rejected reason, s2) ->
  exists m,
    perform browser this a s = (Rejected (Error m), s2)
    /\ includes (By_toString (locator this)) m = true
    /\ includes (toString reason) m = true.
Proof.
  intros G B.
  destruct a; revert B; unfold_actions; unfold bind, try_catch;
    rewrite G; cbv beta iota;
    match goal with
    | |- context [match ?m s1 with _ => _ end] =>
        destruct (m s1) as [[v|t] s'] eqn:E
    end;
    intros B; inversion B; subst; unfold throw;
    (eexists; split; [reflexivity | split; includes_tac]).
Qed.

Lemma action_error_embeds_locator_and_failure_witness :
  exists m,
    perform (Scenario.clicking [] [7%nat])
      (new_PageElement Scenario.kw
         (Some {| retires := Absent; timeout := Absent; describe := Absent;
                  index := Absent; element := Own (Some (Plain 7%nat)) |}))
      Click [] = (Rejected (Error m), [ev (ElemClick 7%nat)])
    /\ includes (By_toString Scenario.kw) m = true
    /\ includes (toString (Scenario.stale 7%nat)) m = true.
Proof.
  refine (action_error_embeds_locator_and_failure (Scenario.clicking [] [7%nat])
            (new_PageElement Scenario.kw
               (Some {| retires := Absent; timeout := Absent; describe := Absent;
                        index := Absent; element := Own (Some (Plain 7%nat)) |}))
            Click [] [] [ev (ElemClick 7%nat)] (Some 7%nat) (Scenario.stale 7%nat) _ _);
    reflexivity.
Defined.

(** ** Access to the matched elements *)

Section ElementSet.

Variable browser : Browser.
Variable loc : Locator.

Lemma elements_run (s : Log) :
  PageElements.elements browser loc s
  = (respond browser _ s (FindElements loc), (s ++ [ev (FindElements loc)])%list).
Proof. reflexivity. Qed.

Lemma length_run (s : Log) (all : list WebElement) :
  respond browser _ s (FindElements loc) = Resolved all ->
  PageElements.length browser loc s
  = (Resolved (Z.of_nat (List.length all)), (s ++ [ev (FindElements loc)])%list).
Proof.
  intros E. unfold PageElements.length, bind. now rewrite elements_run, E.
Qed.

Lemma findByIndex_run (s : Log) (all : list WebElement) (i : Z) :
  respond browser _ s (FindElements loc) = Resolved all ->
  PageElements.findByIndex browser loc i s
  = (if i >=? Z.of_nat (List.length all)
     then Rejected (Error ("Element not found at index " ++ num i))
     else Resolved (at_index all i),
     (s ++ [ev (FindElements loc)])%list).
Proof.
  intros E. unfold PageElements.findByIndex, bind.
  rewrite elements_run, E.
  destruct (i >=? Z.of_nat (List.length all)); reflexivity.
Qed.

End ElementSet.

(** C7.  In a document state where [elements] yields [all] and [length]
    yields [count], [findByIndex i] fails with the index error when
    [i >= count] and otherwise yields [all[i]].  The message of the error
    is [Element not found at index ] followed by the index as it is
    interpolated, which for a safe integer is the index with all its
    digits. *)
Theorem findByIndex_bounds
    (browser : Browser) (loc : Locator) (s : Log)
    (all : list WebElement) (count i : Z) :
  fst (PageElements.elements browser loc s) = Resolved all ->
  fst (PageElements.length browser loc s) = Resolved count ->
  if i >=? count
  then exists printed : string,
         fst (PageElements.findByIndex browser loc i s)
         = Rejected (Error ("Element not found at index " ++ printed))
         /\ (Z.abs i <= MAX_SAFE_INTEGER -> printed = num i)
  else fst (PageElements.findByIndex browser loc i s)
       = Resolved (at_index all i).
Proof.
  rewrite elements_run; cbn [fst]; intros E.
  rewrite (length_run browser loc s all E); cbn [fst]; intros [= <-].
  rewrite (findByIndex_run browser loc s all i E). cbn [fst].
  destruct (i >=? Z.of_nat (List.length all)); [|reflexivity].
  exists (num i). split; [reflexivity | intros _; reflexivity].
Qed.

Lemma findByIndex_bounds_witness :
  (exists printed : string,
     fst (PageElements.findByIndex (Scenario.clicking [4; 5; 6]%nat [])
            Scenario.kw 3 [])
     = Rejected (Error ("Element not found at index " ++ printed))
     /\ (Z.abs 3 <= MAX_SAFE_INTEGER -> printed = num 3))
  /\ fst (PageElements.findByIndex (Scenario.clicking [4; 5; 6]%nat [])
            Scenario.kw 2 [])
     = Resolved (Some 6%nat).
Proof.
  split.
  - refine (findByIndex_bounds (Scenario.clicking [4; 5; 6]%nat []) Scenario.kw
              [] [4; 5; 6]%nat 3 3 _ _); reflexivity.
  - refine (findByIndex_bounds (Scenario.clicking [4; 5; 6]%nat []) Scenario.kw
              [] [4; 5; 6]%nat 3 2 _ _); reflexivity.
Defined.

(** C8.  When the locator matches no element, [first] and [last] fail with
    the error for an empty result and [length] yields 0. *)
Theorem empty_match
    (browser : Browser) (loc : Locator) (s : Log) :
  respond browser _ s (FindElements loc) = Resolved [] ->
  fst (PageElements.first browser loc s) = Rejected (Error "No elements found")
  /\ fst (PageElements.last browser loc s) = Rejected (Error "No elements found")
  /\ fst (PageElements.length browser loc s) = Resolved 0.
Proof.
  intros E.
  unfold PageElements.first, PageElements.last, PageElements.length, bind.
  rewrite elements_run, E. repeat split.
Qed.

Lemma empty_match_witness :
  fst (PageElements.first (Scenario.clicking [] []) Scenario.kw [])
  = Rejected (Error "No elements found")
  /\ fst (PageElements.last (Scenario.clicking [] []) Scenario.kw [])
     = Rejected (Error "No elements found")
  /\ fst (PageElements.length (Scenario.clicking [] []) Scenario.kw [])
     = Resolved 0.
Proof.
  refine (empty_match (Scenario.clicking [] []) Scenario.kw [] _).
  reflexivity.
Defined.

(** C10.  For a negative index the test [index >= elements.length] is
    false whatever the elements are: [findByIndex] does not fail, it yields
    [undefined]. *)
Theorem findByIndex_negative
    (browser : Browser) (loc : Locator) (s : Log)
    (all : list WebElement) (i : Z) :
  i < 0 ->
  respond browser _ s (FindElements loc) = Resolved all ->
  PageElements.findByIndex browser loc i s
  = (Resolved None, (s ++ [ev (FindElements loc)])%list).
Proof.
  intros Hi E.
  rewrite (findByIndex_run browser loc s all i E).
  replace (i >=? Z.of_nat (List.length all)) with false
    by (symmetry; rewrite Z.geb_leb; apply Z.leb_gt; lia).
  unfold at_index.
  now replace (i <? 0) with true by (symmetry; apply Z.ltb_lt; lia).
Qed.

Lemma findByIndex_negative_witness :
  PageElements.findByIndex (Scenario.clicking [4; 5; 6]%nat []) Scenario.kw (-1) []
  = (Resolved None, [ev (FindElements Scenario.kw)]).
Proof.
  refine (findByIndex_negative (Scenario.clicking [4; 5; 6]%nat []) Scenario.kw
            [] [4; 5; 6]%nat (-1) _ _).
  - lia.
  - reflexivity.
Defined.

(** ** Clicking every matched element *)

Section ClickAll.

Variable browser : Browser.

Lemma at_click_cons (s : Log) (e : WebElement) (es : list WebElement) (i : nat) :
  at_click s (e :: es) (S i) = at_click (s ++ [ev (ElemClick e)])%list es i.
Proof. unfold at_click. cbn [firstn clicks map]. now rewrite <- app_assoc. Qed.

Lemma click_fails_cons (s : Log) (e : WebElement) (es : list WebElement)
    (i : nat) (reason : Thrown) :
  click_fails browser s (e :: es) (S i) reason
  <-> click_fails browser (s ++ [ev (ElemClick e)])%list es i reason.
Proof. unfold click_fails. cbn [nth_error]. now rewrite at_click_cons. Qed.

Lemma click_settles_cons (s : Log) (e : WebElement) (es : list WebElement)
    (i : nat) :
  click_settles browser s (e :: es) (S i)
  = click_settles browser (s ++ [ev (ElemClick e)])%list es i.
Proof. unfold click_settles. now rewrite at_click_cons. Qed.

Lemma click_one_run (s : Log) (e : WebElement) (index : nat) :
  PageElements.click_one browser e index s
  = (match respond browser _ s (ElemClick e) with
     | Resolved u => Resolved u
     | Rejected reason => Rejected (Error (click_one_message index reason))
     end, (s ++ [ev (ElemClick e)])%list).
Proof.
  unfold PageElements.click_one, try_catch, call.
  destruct (respond browser unit s (ElemClick e)); reflexivity.
Qed.

(** What [map] over the elements leaves: every click sent once, in
    order, and promises whose first rejection is the failed click that
    settles first. *)
Lemma map_async_clicks (es : list WebElement) :
  forall (index : nat) (s : Log),
  exists ps,
    PageElements.map_async browser (PageElements.click_one browser) es index s
    = (Resolved ps, (s ++ clicks es)%list)
    /\ match PageElements.first_rejection ps with
       | None => forall i reason, ~ click_fails browser s es i reason
       | Some (time, t) =>
           exists i reason,
             click_fails browser s es i reason
             /\ time = click_settles browser s es i
             /\ t = Error (click_one_message (index + i) reason)
             /\ forall j reason',
                  click_fails browser s es j reason' ->
                  (time <= click_settles browser s es j)%nat
       end.
Proof.
  induction es as [|e es IH]; intros index s.
  - exists []. cbn. rewrite app_nil_r. split; [reflexivity|].
    intros i reason (e & H & _). destruct i; discriminate.
  - destruct (IH (S index) (s ++ [ev (ElemClick e)])%list) as (ps & Hrun & Hfirst).
    cbn [PageElements.map_async]. unfold bind, PageElements.start.
    rewrite click_one_run, Hrun. cbv beta iota.
    eexists. split.
    { unfold ret. cbn [clicks map]. now rewrite <- app_assoc. }
    cbn [PageElements.first_rejection PageElements.outcome PageElements.settled].
    assert (Hhead : at_click s (e :: es) 0 = s)
      by (unfold at_click; cbn; apply app_nil_r).
    assert (Hsettle : click_settles browser s (e :: es) 0
                      = settles_at browser (s ++ [ev (ElemClick e)])%list)
      by (unfold click_settles, at_click; reflexivity).
    destruct (respond browser unit s (ElemClick e)) as [u|reason] eqn:E.
    + (* this click succeeds: the first rejection is among the others *)
      destruct (PageElements.first_rejection ps) as [[time t]|].
      * destruct Hfirst as (i & reason & Hf & Ht & Hm & Hmin).
        exists (S i), reason. rewrite click_fails_cons, click_settles_cons.
        repeat split; auto.
        { now replace (index + S i)%nat with (S index + i)%nat by lia. }
        intros [|j] reason' Hj.
        { destruct Hj as (e' & He' & Hr). cbn in He'. injection He' as <-.
          rewrite Hhead in Hr. congruence. }
        rewrite click_settles_cons. apply click_fails_cons in Hj. eauto.
      * intros [|i] reason Hi.
        { destruct Hi as (e' & He' & Hr). cbn in He'. injection He' as <-.
          rewrite Hhead in Hr. congruence. }
        apply click_fails_cons in Hi. exact (Hfirst i reason Hi).
    + (* this click fails *)
      assert (H0 : click_fails browser s (e :: es) 0 reason)
        by (exists e; rewrite Hhead; auto).
      destruct (PageElements.first_rejection ps) as [[time t]|].
      * destruct Hfirst as (i & reason1 & Hf & Ht & Hm & Hmin).
        destruct (Nat.leb_spec (settles_at browser (s ++ [ev (ElemClick e)])%list) time)
          as [Hle|Hgt].
        { exists 0%nat, reason. rewrite Hsettle, Nat.add_0_r.
          repeat split; auto.
          intros [|j] reason' Hj; [rewrite Hsettle; lia|].
          rewrite click_settles_cons. apply click_fails_cons in Hj.
          specialize (Hmin j reason' Hj). lia. }
        { exists (S i), reason1. rewrite click_fails_cons, click_settles_cons.
          repeat split; auto.
          { now replace (index + S i)%nat with (S index + i)%nat by lia. }
          intros [|j] reason' Hj; [rewrite Hsettle; lia|].
          rewrite click_settles_cons. apply click_fails_cons in Hj. eauto. }
      * exists 0%nat, reason. rewrite Hsettle, Nat.add_0_r.
        repeat split; auto.
        intros [|j] reason' Hj; [rewrite Hsettle; lia|].
        apply click_fails_cons in Hj. destruct (Hfirst j reason' Hj).
Qed.

End ClickAll.

Lemma clicks_on_clicks (x : WebElement) (es : list WebElement) :
  clicks_on x (clicks es) = count_occ Nat.eq_dec es x.
Proof.
  unfold clicks_on. induction es as [|e es IH]; [reflexivity|].
  cbn [clicks map filter count_occ]. fold (clicks es).
  unfold is_click at 1; cbn [projT2 ev].
  destruct (Nat.eq_dec e x) as [->|Hne].
  - rewrite Nat.eqb_refl. cbn [List.length]. now rewrite IH.
  - replace (x =? e)%nat with false
      by (symmetry; apply Nat.eqb_neq; congruence).
    exact IH.
Qed.

(** Two matched elements whose clicks both fail: the error reports the
    element at index 0 and has nothing of the failure at index 1. *)
Lemma clickAll_counterexample :
  ~ clickAll_lists_every_failure (Scenario.clicking [5; 6]%nat [5; 6]%nat)
      Scenario.kw [].
Proof.
  intros H.
  destruct (H [5; 6]%nat 1%nat (Scenario.stale 6%nat) eq_refl)
    as (t & E & I & _).
  - exists 6%nat. split; reflexivity.
  - vm_compute in E. injection E as <-.
    vm_compute in I. discriminate.
Qed.

(** C3, amended.  [clickAll] sends one click to every matched element, in
    order, whatever the outcome of the other clicks.  When no click fails
    it succeeds.  When one or more clicks fail it fails with one error,
    which holds the index and the failure text of the failed click that
    settles first, and of that one only. *)
Theorem clickAll_clicks_all_reports_first
    (browser : Browser) (loc : Locator) (s : Log) (es : list WebElement) :
  respond browser _ s (FindElements loc) = Resolved es ->
  snd (PageElements.clickAll browser loc s)
  = ((s ++ [ev (FindElements loc)]) ++ clicks es)%list
  /\ (forall x, clicks_on x (snd (PageElements.clickAll browser loc s))
                = (clicks_on x s + count_occ Nat.eq_dec es x)%nat)
  /\ ((fst (PageElements.clickAll browser loc s) = Resolved tt
       /\ forall i reason,
            ~ click_fails browser (s ++ [ev (FindElements loc)])%list es i reason)
      \/ exists i reason,
           click_fails browser (s ++ [ev (FindElements loc)])%list es i reason
           /\ (forall j reason',
                 click_fails browser (s ++ [ev (FindElements loc)])%list es j reason' ->
                 (click_settles browser (s ++ [ev (FindElements loc)])%list es i
                  <= click_settles browser (s ++ [ev (FindElements loc)])%list es j)%nat)
           /\ fst (PageElements.clickAll browser loc s)
              = Rejected (Error ("点击元素失败: Error: 点击元素失败，索引: "
                                 ++ num (Z.of_nat i) ++ "," ++ toString reason))).
Proof.
  intros E.
  destruct (map_async_clicks browser es 0 (s ++ [ev (FindElements loc)])%list)
    as (ps & Hrun & Hfirst).
  assert (R : PageElements.clickAll browser loc s
              = (match PageElements.first_rejection ps with
                 | Some (_, t) => Rejected (Error ("点击元素失败: " ++ toString t))
                 | None => Resolved tt
                 end, ((s ++ [ev (FindElements loc)]) ++ clicks es)%list)).
  { unfold PageElements.clickAll, try_catch, bind.
    rewrite elements_run, E. cbv beta iota. rewrite Hrun. cbv beta iota.
    unfold PageElements.Promise_all.
    destruct (PageElements.first_rejection ps) as [[time t]|]; reflexivity. }
  rewrite R; cbn [fst snd]. split; [reflexivity|]. split.
  - intros x. unfold clicks_on. rewrite !filter_app, !length_app.
    fold (clicks_on x (clicks es)). rewrite clicks_on_clicks.
    cbn. lia.
  - destruct (PageElements.first_rejection ps) as [[time t]|].
    + right. destruct Hfirst as (i & reason & Hf & Ht & Hm & Hmin).
      exists i, reason. repeat split; auto.
      * intros j reason' Hj. rewrite <- Ht. eauto.
      * rewrite Hm. reflexivity.
    + left. split; [reflexivity | exact Hfirst].
Qed.

Lemma clickAll_clicks_all_reports_first_witness :
  snd (PageElements.clickAll (Scenario.clicking [1; 2; 3; 4; 5]%nat [3]%nat)
         Scenario.kw [])
  = ev (FindElements Scenario.kw) :: clicks [1; 2; 3; 4; 5]%nat.
Proof.
  refine (proj1 (clickAll_clicks_all_reports_first
                   (Scenario.clicking [1; 2; 3; 4; 5]%nat [3]%nat)
                   Scenario.kw [] [1; 2; 3; 4; 5]%nat _)).
  reflexivity.
Defined.

(** * Further properties of [Page.ts] *)

(** ** Actions and the resolution of their element *)

(** X1.  The element is resolved outside the [try] of an action: when the
    resolution fails, each of the thirteen actions fails with the very
    error of the resolution, unwrapped, and sends nothing more. *)
Theorem action_propagates_resolution_failure
    (browser : Browser) (this : PageElement) (a : Action)
    (s s1 : Log) (reason : Thrown) :
  getElement browser this s = (Rejected reason, s1) ->
  perform browser this a s = (Rejected reason, s1).
Proof.
  intros G.
  destruct a; unfold_actions; unfold bind; rewrite G; reflexivity.
Qed.

Lemma action_propagates_resolution_failure_witness :
  perform Scenario.never_located (new_PageElement Scenario.kw None) GetText []
  = (Rejected (Error "Failed to find element using By(css selector, #kw), describe: 找不到定位元素"),
     [ev (WaitElementLocated Scenario.kw 5000 (Some "找不到定位元素"))]).
Proof.
  refine (action_propagates_resolution_failure Scenario.never_located
            (new_PageElement Scenario.kw None) GetText [] _ _ _).
  reflexivity.
Defined.

(** X2.  When the element is resolved and the browser operation on it
    succeeds, each of the thirteen actions yields the answer of the
    browser, and sends nothing after that operation. *)
Theorem action_returns_browser_answer
    (browser : Browser) (this : PageElement) (a : Action)
    (s s1 s2 : Log) (elem : option WebElement) (v : Answer) :
  getElement browser this s = (Resolved elem, s1) ->
  browser_action browser a elem s1 = (Resolved v, s2) ->
  perform browser this a s = (Resolved v, s2).
Proof.
  intros G B.
  destruct a; revert B; unfold_actions; unfold bind, try_catch;
    rewrite G; cbv beta iota;
    match goal with
    | |- context [match ?m s1 with _ => _ end] =>
        destruct (m s1) as [[x|t] s'] eqn:E
    end;
    intros B; first [discriminate B | exact B].
Qed.

Lemma action_returns_browser_answer_witness :
  perform (Scenario.clicking [7%nat] [])
    (new_PageElement Scenario.kw None) GetTagName []
  = (Resolved (Text "input"),
     [ev (WaitElementLocated Scenario.kw 5000 (Some "找不到定位元素"));
      ev (WaitElementIsVisible (Some 7%nat) 5000 "Element is not visible: 找不到定位元素");
      ev (ElemGetTagName 7%nat)]).
Proof.
  refine (action_returns_browser_answer (Scenario.clicking [7%nat] [])
            (new_PageElement Scenario.kw None) GetTagName []
            [ev (WaitElementLocated Scenario.kw 5000 (Some "找不到定位元素"));
             ev (WaitElementIsVisible (Some 7%nat) 5000 "Element is not visible: 找不到定位元素")]
            _ (Some 7%nat) (Text "input") _ _); reflexivity.
Defined.

(** ** [findElement] outside the failing case *)

(** X3.  With [retires <= 0], [findElement] never waits for the element and
    never fails: it makes one visibility check on [undefined] when
    [retires = 0] and none below, ignores its outcome and yields
    [undefined]. *)
Theorem findElement_nonpositive_retires
    (browser : Browser) (this : PageElement) (n : Z) (s : Log) :
  read (retires (config this)) = Some n ->
  n <= 0 ->
  findElement browser this s
  = (Resolved None,
     (s ++ repeat (ev (visibility_wait this None)) (Z.to_nat (n + 1)))%list).
Proof.
  intros Hn Hle.
  assert (Hr : retires_of this = n) by (unfold retires_of; now rewrite Hn).
  unfold findElement, bind. rewrite Hr.
  replace (Z.to_nat n) with 0%nat by lia.
  cbn [locate_loop]. unfold ret at 1. cbv beta iota.
  destruct (Z.eq_dec n 0) as [->|Hneg].
  - change (Z.to_nat (0 + 1)) with 1%nat.
    cbn [visibility_loop repeat]. unfold bind, settle, call.
    rewrite Hr.
    destruct (respond browser unit s (visibility_wait this None)); reflexivity.
  - replace (Z.to_nat (n + 1)) with 0%nat by lia.
    cbn [visibility_loop repeat]. unfold ret. now rewrite app_nil_r.
Qed.

Lemma findElement_nonpositive_retires_witness :
  findElement (Scenario.visible_from None)
    (new_PageElement Scenario.kw (Some (Scenario.with_retires 0))) []
  = (Resolved None,
     [ev (WaitElementIsVisible None 5000 "Element is not visible: 找不到定位元素")]).
Proof.
  refine (findElement_nonpositive_retires (Scenario.visible_from None)
            (new_PageElement Scenario.kw (Some (Scenario.with_retires 0)))
            0 [] _ _).
  - reflexivity.
  - lia.
Defined.

Section LocateRetry.

Variable browser : Browser.
Variable this : PageElement.

(** Failed waits before the iteration [retires - 1] only move the first
    loop on. *)
Lemma locate_loop_skip (k : nat) :
  forall (todo : nat) (i : Z) (s : Log),
    unlocated_for browser this k s ->
    i + Z.of_nat k <= retires_of this - 1 ->
    (k <= todo)%nat ->
    locate_loop browser this todo i s
    = locate_loop browser this (todo - k) (i + Z.of_nat k)
        (s ++ repeat (ev (locate_wait this)) k)%list.
Proof.
  induction k as [|k IH]; intros todo i s Hfail Hi Hk.
  - cbn [repeat]. now rewrite app_nil_r, Nat.sub_0_r, Z.add_0_r.
  - destruct todo as [|todo]; [lia|].
    cbn [locate_loop]. unfold bind, settle, call.
    destruct (Hfail 0%nat) as [reason E]; [lia|].
    cbn [repeat] in E. rewrite app_nil_r in E. rewrite E.
    replace (i =? retires_of this - 1) with false
      by (symmetry; apply Z.eqb_neq; lia).
    rewrite (IH todo (i + 1) (s ++ [ev (locate_wait this)])%list)
      by (try apply unlocated_for_tail; auto; lia).
    rewrite app_repeat_snoc.
    f_equal; lia.
Qed.

(** Every loop only appends waits of its own kind, and no more than it has
    iterations. *)
Lemma locate_loop_sends (todo : nat) :
  forall (i : Z) (s : Log),
  exists k,
    snd (locate_loop browser this todo i s)
    = (s ++ repeat (ev (locate_wait this)) k)%list
    /\ (k <= todo)%nat.
Proof.
  induction todo as [|todo IH]; intros i s.
  - exists 0%nat. cbn. now rewrite app_nil_r.
  - cbn [locate_loop]. unfold bind, settle, call.
    destruct (respond browser WebElement s (locate_wait this)) as [e|reason].
    + exists 1%nat. split; [reflexivity | lia].
    + destruct (i =? retires_of this - 1).
      * exists 1%nat. split; [reflexivity | lia].
      * destruct (IH (i + 1) (s ++ [ev (locate_wait this)])%list) as (k & E & Hk).
        exists (S k). rewrite E, app_repeat_snoc. split; [reflexivity | lia].
Qed.

Lemma visibility_loop_sends (elem : option WebElement) (todo : nat) :
  forall (i : Z) (s : Log),
  exists k,
    snd (visibility_loop browser this elem todo i s)
    = (s ++ repeat (ev (visibility_wait this elem)) k)%list
    /\ (k <= todo)%nat
    /\ (i <= retires_of this - 1 -> (k <= Z.to_nat (retires_of this - i))%nat).
Proof.
  induction todo as [|todo IH]; intros i s.
  - exists 0%nat. cbn. rewrite app_nil_r. repeat split; lia.
  - cbn [visibility_loop]. unfold bind, settle, call.
    destruct (respond browser unit s (visibility_wait this elem)) as [u|reason].
    + exists 1%nat. repeat split; lia.
    + destruct (Z.eqb_spec i (retires_of this - 1)) as [Heq|Hne].
      * exists 1%nat. repeat split; lia.
      * destruct (IH (i + 1) (s ++ [ev (visibility_wait this elem)])%list)
          as (k & E & Hk & Hb).
        exists (S k). rewrite E, app_repeat_snoc.
        repeat split; lia.
Qed.

End LocateRetry.

(** X4.  With [retires = n >= 1]: when the first [k < n] waits for the
    element fail, the next one yields an element and the first visibility
    check on it succeeds, [findElement] returns that element after
    [k + 1] locate waits and one visibility wait. *)
Theorem findElement_retry_succeeds
    (browser : Browser) (this : PageElement) (n : Z) (s : Log)
    (k : nat) (e : WebElement) :
  read (retires (config this)) = Some n ->
  (k < Z.to_nat n)%nat ->
  (forall j, (j < k)%nat -> exists reason,
      respond browser _
        (s ++ repeat (ev (locate_wait this)) j)%list (locate_wait this)
      = Rejected reason) ->
  respond browser _
    (s ++ repeat (ev (locate_wait this)) k)%list (locate_wait this)
  = Resolved e ->
  respond browser _
    (s ++ repeat (ev (locate_wait this)) (S k))%list
    (visibility_wait this (Some e))
  = Resolved tt ->
  findElement browser this s
  = (Resolved (Some e),
     (s ++ repeat (ev (locate_wait this)) (S k)
        ++ [ev (visibility_wait this (Some e))])%list).
Proof.
  intros Hn Hk Hfail Hfound Hvis.
  assert (Hr : retires_of this = n) by (unfold retires_of; now rewrite Hn).
  unfold findElement, bind. rewrite Hr.
  rewrite (locate_loop_skip browser this k) by (auto; lia).
  replace (Z.to_nat n - k)%nat with (S (Z.to_nat n - k - 1)) by lia.
  cbn [locate_loop]. unfold bind, settle, call. rewrite Hfound.
  unfold ret at 1. cbv beta iota. rewrite app_repeat_end.
  replace (Z.to_nat (n + 1)) with (S (Z.to_nat n)) by lia.
  rewrite visibility_loop_visible by assumption.
  unfold ret. now rewrite <- app_assoc.
Qed.

Lemma findElement_retry_succeeds_witness :
  findElement (appears_from 1)
    (new_PageElement Scenario.kw (Some (Scenario.with_retires 2))) []
  = (Resolved (Some 7%nat),
     [ev (WaitElementLocated Scenario.kw 5000 (Some "找不到定位元素"));
      ev (WaitElementLocated Scenario.kw 5000 (Some "找不到定位元素"));
      ev (WaitElementIsVisible (Some 7%nat) 5000 "Element is not visible: 找不到定位元素")]).
Proof.
  refine (findElement_retry_succeeds (appears_from 1)
            (new_PageElement Scenario.kw (Some (Scenario.with_retires 2)))
            2 [] 1 7%nat _ _ _ _ _).
  - reflexivity.
  - simpl; lia.
  - intros j Hj. exists Scenario.timed_out.
    destruct j as [|j]; [reflexivity | exfalso; lia].
  - reflexivity.
  - reflexivity.
Defined.

(** X5.  Whatever the browser answers, [findElement] only sends locate
    waits followed by visibility waits on one element: at most [retires]
    locate waits, at most [retires + 1] visibility waits, and at most
    [retires] of them when [retires >= 1]. *)
Theorem findElement_sends_bounded_waits
    (browser : Browser) (this : PageElement) (s : Log) :
  exists (k1 k2 : nat) (elem : option WebElement),
    snd (findElement browser this s)
    = (s ++ repeat (ev (locate_wait this)) k1
         ++ repeat (ev (visibility_wait this elem)) k2)%list
    /\ (k1 <= Z.to_nat (retires_of this))%nat
    /\ (k2 <= Z.to_nat (retires_of this + 1))%nat
    /\ (k2 <= Nat.max 1 (Z.to_nat (retires_of this)))%nat.
Proof.
  destruct (locate_loop_sends browser this (Z.to_nat (retires_of this)) 0 s)
    as (k1 & E1 & H1).
  unfold findElement, bind.
  destruct (locate_loop browser this (Z.to_nat (retires_of this)) 0 s)
    as [[elem|reason] s1] eqn:L; cbn [snd] in E1; subst s1.
  - destruct (visibility_loop_sends browser this elem
                (Z.to_nat (retires_of this + 1)) 0
                (s ++ repeat (ev (locate_wait this)) k1)%list)
      as (k2 & E2 & H2 & H3).
    exists k1, k2, elem.
    destruct (visibility_loop browser this elem (Z.to_nat (retires_of this + 1)) 0
                (s ++ repeat (ev (locate_wait this)) k1)%list)
      as [[u|reason] s2]; cbn [snd] in E2 |- *; subst s2;
      (split; [now rewrite <- app_assoc | repeat split; lia]).
  - exists k1, 0%nat, None. cbn [repeat snd]. rewrite app_nil_r.
    repeat split; lia.
Qed.

(** ** Selectors *)

Lemma string_app_assoc (a b c : string) : (a ++ b) ++ c = a ++ b ++ c.
Proof. induction a as [|x a IH]; simpl; [reflexivity | now rewrite IH]. Qed.

Lemma string_app_nil_r (a : string) : a ++ EmptyString = a.
Proof. induction a as [|x a IH]; simpl; [reflexivity | now rewrite IH]. Qed.

Lemma string_length_app (a b : string) :
  String.length (a ++ b) = (String.length a + String.length b)%nat.
Proof. induction a as [|x a IH]; simpl; [reflexivity | now rewrite IH]. Qed.

(** X6.  The chaining methods of a CSS page element are all [css] with a
    simple selector, and [css] composes: a descendant of a descendant is
    the descendant by the two selectors joined with a space.  The child
    is built from its own configuration; nothing of the configuration of
    the parent is kept. *)
Theorem css_chaining
    (this : CSSPageElement.t) (a b : string)
    (c1 c2 : option PageElementConfiguration) :
  CSSPageElement.id this a c1 = CSSPageElement.css this ("#" ++ a) c1
  /\ CSSPageElement.className this a c1 = CSSPageElement.css this ("." ++ a) c1
  /\ CSSPageElement.tag this a c1 = CSSPageElement.css this a c1
  /\ CSSPageElement.attributes this a b c1
     = CSSPageElement.css this ("[" ++ a ++ "= '" ++ b ++ "']") c1
  /\ CSSPageElement.css (CSSPageElement.css this a c1) b c2
     = CSSPageElement.css this (a ++ " " ++ b) c2
  /\ CSSPageElement.super (CSSPageElement.css this a c1)
     = new_PageElement (By_css (CSSPageElement.selector this ++ " " ++ a)) c1.
Proof.
  repeat split.
  unfold CSSPageElement.css, CSSPageElement.new.
  cbn [CSSPageElement.selector or_default].
  rewrite string_app_assoc. reflexivity.
Qed.

(** X7.  [xpath] appends its argument to the selector as it is, so a step
    of a step is the step by the two expressions put together, starting
    from [findByXPath]. *)
Theorem xpath_chaining
    (root a b : string) (c0 c1 c2 : option PageElementConfiguration) :
  XpathPageElement.xpath
    (XpathPageElement.xpath (Page.findByXPath root c0) a c1) b c2
  = Page.findByXPath (root ++ a ++ b) c2
  /\ XpathPageElement.super
       (XpathPageElement.xpath (Page.findByXPath root c0) a c1)
     = new_PageElement (By_xpath (root ++ a)) c1.
Proof.
  split; [|reflexivity].
  unfold XpathPageElement.xpath, Page.findByXPath, XpathPageElement.new.
  cbn [XpathPageElement.selector or_default].
  now rewrite string_app_assoc.
Qed.

(** ** More on the matched elements *)

(** X8.  [findByIndex] yields an element exactly for the indices
    [0 <= i < length]: then it is the element at that position. *)
Theorem findByIndex_in_range
    (browser : Browser) (loc : Locator) (s : Log)
    (all : list WebElement) (i : Z) :
  respond browser _ s (FindElements loc) = Resolved all ->
  ((exists e, fst (PageElements.findByIndex browser loc i s) = Resolved (Some e))
   <-> 0 <= i < Z.of_nat (List.length all))
  /\ (0 <= i < Z.of_nat (List.length all) ->
      fst (PageElements.findByIndex browser loc i s)
      = Resolved (nth_error all (Z.to_nat i))).
Proof.
  intros E. rewrite (findByIndex_run browser loc s all i E). cbn [fst].
  unfold at_index.
  destruct (Z.geb_spec i (Z.of_nat (List.length all))) as [Hge|Hlt].
  - split; [|intros; lia].
    split; [intros [e H]; discriminate | lia].
  - destruct (Z.ltb_spec i 0) as [Hneg|Hpos].
    + split; [|intros; lia].
      split; [intros [e H]; discriminate | lia].
    + split; [|reflexivity].
      split; [lia|]. intros _.
      destruct (nth_error all (Z.to_nat i)) as [e|] eqn:N; [now exists e|].
      apply nth_error_None in N. lia.
Qed.

Lemma findByIndex_in_range_witness :
  fst (PageElements.findByIndex (Scenario.clicking [4; 5; 6]%nat [])
         Scenario.kw 1 [])
  = Resolved (Some 5%nat).
Proof.
  refine (proj2 (findByIndex_in_range (Scenario.clicking [4; 5; 6]%nat [])
                   Scenario.kw [] [4; 5; 6]%nat 1 _) _).
  - reflexivity.
  - simpl; lia.
Defined.

Lemma last_cons {A} (l : list A) :
  forall (x d : A), List.last (x :: l) d = List.last l x.
Proof.
  induction l as [|y l IH]; intros x d; [reflexivity|].
  change (List.last (x :: y :: l) d) with (List.last (y :: l) d).
  now rewrite !IH.
Qed.

Lemma nth_error_last {A} (l : list A) :
  forall e : A, nth_error (e :: l) (List.length l) = Some (List.last l e).
Proof.
  induction l as [|x l IH]; intros e; [reflexivity|].
  cbn [List.length nth_error]. now rewrite IH, last_cons.
Qed.

(** X9.  On a set that is not empty, [first] is [findByIndex 0] and
    yields the first element, [last] is [findByIndex (length - 1)] and
    yields the last one. *)
Theorem first_last_on_nonempty
    (browser : Browser) (loc : Locator) (s : Log)
    (e : WebElement) (rest : list WebElement) :
  respond browser _ s (FindElements loc) = Resolved (e :: rest) ->
  PageElements.first browser loc s
  = (Resolved (Some e), (s ++ [ev (FindElements loc)])%list)
  /\ PageElements.last browser loc s
     = (Resolved (Some (List.last rest e)), (s ++ [ev (FindElements loc)])%list)
  /\ PageElements.first browser loc s = PageElements.findByIndex browser loc 0 s
  /\ PageElements.last browser loc s
     = PageElements.findByIndex browser loc (Z.of_nat (List.length rest)) s.
Proof.
  intros E.
  pose proof (nth_error_last rest e) as L.
  rewrite !(findByIndex_run browser loc s (e :: rest) _ E).
  unfold PageElements.first, PageElements.last, bind.
  rewrite elements_run, E. cbv beta iota.
  replace (Z.of_nat (List.length (e :: rest)) =? 0) with false
    by (symmetry; apply Z.eqb_neq; cbn [List.length]; lia).
  replace (0 >=? Z.of_nat (List.length (e :: rest))) with false
    by (symmetry; rewrite Z.geb_leb; apply Z.leb_gt; cbn [List.length]; lia).
  replace (Z.of_nat (List.length rest) >=? Z.of_nat (List.length (e :: rest)))
    with false
    by (symmetry; rewrite Z.geb_leb; apply Z.leb_gt; cbn [List.length]; lia).
  replace (Z.of_nat (List.length (e :: rest)) - 1)
    with (Z.of_nat (List.length rest)) by (cbn [List.length]; lia).
  assert (A : at_index (e :: rest) (Z.of_nat (List.length rest))
              = Some (List.last rest e)).
  { unfold at_index.
    replace (Z.of_nat (List.length rest) <? 0) with false
      by (symmetry; apply Z.ltb_ge; lia).
    now rewrite Nat2Z.id. }
  unfold ret. rewrite A. repeat split.
Qed.

Lemma first_last_on_nonempty_witness :
  PageElements.first (Scenario.clicking [4; 5; 6]%nat []) Scenario.kw []
  = (Resolved (Some 4%nat), [ev (FindElements Scenario.kw)])
  /\ PageElements.last (Scenario.clicking [4; 5; 6]%nat []) Scenario.kw []
     = (Resolved (Some 6%nat), [ev (FindElements Scenario.kw)]).
Proof.
  destruct (first_last_on_nonempty (Scenario.clicking [4; 5; 6]%nat [])
              Scenario.kw [] 4%nat [5; 6]%nat eq_refl) as (F & L & _).
  split; [exact F | exact L].
Defined.

(** X10.  When the search for the elements fails, [length], [findByIndex],
    [first] and [last] fail with the very error of the browser (the
    [catch] of [elements] does not see a rejection of the promise it
    returns), while [clickAll] wraps it in its own error; no click is
    sent. *)
Theorem elements_failure
    (browser : Browser) (loc : Locator) (s : Log) (reason : Thrown) (i : Z) :
  respond browser _ s (FindElements loc) = Rejected reason ->
  PageElements.elements browser loc s
  = (Rejected reason, (s ++ [ev (FindElements loc)])%list)
  /\ PageElements.length browser loc s
     = (Rejected reason, (s ++ [ev (FindElements loc)])%list)
  /\ PageElements.findByIndex browser loc i s
     = (Rejected reason, (s ++ [ev (FindElements loc)])%list)
  /\ PageElements.first browser loc s
     = (Rejected reason, (s ++ [ev (FindElements loc)])%list)
  /\ PageElements.last browser loc s
     = (Rejected reason, (s ++ [ev (FindElements loc)])%list)
  /\ PageElements.clickAll browser loc s
     = (Rejected (Error ("点击元素失败: " ++ toString reason)),
        (s ++ [ev (FindElements loc)])%list).
Proof.
  intros E.
  unfold PageElements.length, PageElements.findByIndex, PageElements.first,
    PageElements.last, PageElements.clickAll, try_catch, bind.
  rewrite elements_run, E. repeat split.
Qed.

Lemma elements_failure_witness :
  PageElements.clickAll no_session Scenario.kw []
  = (Rejected (Error "点击元素失败: NoSuchSessionError: invalid session id"),
     [ev (FindElements Scenario.kw)]).
Proof.
  refine (proj2 (proj2 (proj2 (proj2 (proj2
            (elements_failure no_session Scenario.kw []
               {| name := "NoSuchSessionError"; message := "invalid session id" |}
               0 _)))))).
  reflexivity.
Defined.

(** [clickAll] once the elements are found: every click is sent, and the
    outcome is that of the first rejection among the clicks. *)
Lemma clickAll_run
    (browser : Browser) (loc : Locator) (s : Log) (es : list WebElement) :
  respond browser _ s (FindElements loc) = Resolved es ->
  exists ps,
    PageElements.map_async browser (PageElements.click_one browser) es 0
      (s ++ [ev (FindElements loc)])%list
    = (Resolved ps, ((s ++ [ev (FindElements loc)]) ++ clicks es)%list)
    /\ PageElements.clickAll browser loc s
       = (match PageElements.first_rejection ps with
          | Some (_, t) => Rejected (Error ("点击元素失败: " ++ toString t))
          | None => Resolved tt
          end, ((s ++ [ev (FindElements loc)]) ++ clicks es)%list).
Proof.
  intros E.
  destruct (map_async_clicks browser es 0 (s ++ [ev (FindElements loc)])%list)
    as (ps & Hrun & _).
  exists ps. split; [exact Hrun|].
  unfold PageElements.clickAll, try_catch, bind.
  rewrite elements_run, E. cbv beta iota. rewrite Hrun. cbv beta iota.
  unfold PageElements.Promise_all.
  destruct (PageElements.first_rejection ps) as [[time t]|]; reflexivity.
Qed.

(** X11.  When the clicks settle in the order in which they were sent, the
    error of [clickAll] reports the failed click with the lowest index. *)
Theorem clickAll_reports_lowest_index
    (browser : Browser) (loc : Locator) (s : Log) (es : list WebElement)
    (i : nat) (reason : Thrown) :
  respond browser _ s (FindElements loc) = Resolved es ->
  (forall j k, (j < k)%nat -> (k < List.length es)%nat ->
     (click_settles browser (s ++ [ev (FindElements loc)])%list es j
      < click_settles browser (s ++ [ev (FindElements loc)])%list es k)%nat) ->
  click_fails browser (s ++ [ev (FindElements loc)])%list es i reason ->
  (forall j reason', (j < i)%nat ->
     ~ click_fails browser (s ++ [ev (FindElements loc)])%list es j reason') ->
  fst (PageElements.clickAll browser loc s)
  = Rejected (Error ("点击元素失败: Error: 点击元素失败，索引: "
                     ++ num (Z.of_nat i) ++ "," ++ toString reason)).
Proof.
  intros E Hmono Hi Hlow.
  destruct (map_async_clicks browser es 0 (s ++ [ev (FindElements loc)])%list)
    as (ps & Hrun & Hfirst).
  destruct (clickAll_run browser loc s es E) as (ps' & Hrun' & R).
  rewrite Hrun in Hrun'. injection Hrun' as <-.
  rewrite R; cbn [fst].
  destruct (PageElements.first_rejection ps) as [[time t]|].
  - destruct Hfirst as (i0 & reason0 & Hf & Ht & Hm & Hmin).
    assert (Hlen : (i < List.length es)%nat).
    { destruct Hi as (e & Hn & _). apply nth_error_Some. congruence. }
    assert (Hi0 : i0 = i).
    { destruct (Nat.lt_trichotomy i0 i) as [Hlt|[Heq|Hgt]]; [|exact Heq|].
      - destruct (Hlow i0 reason0 Hlt Hf).
      - assert (Hlen0 : (i0 < List.length es)%nat).
        { destruct Hf as (e & Hn & _). apply nth_error_Some. congruence. }
        specialize (Hmin i reason Hi). specialize (Hmono i i0 Hgt Hlen0). lia. }
    subst i0.
    assert (reason0 = reason).
    { destruct Hf as (e0 & Hn0 & Hr0), Hi as (e & Hn & Hr). congruence. }
    subst reason0. rewrite Hm. reflexivity.
  - destruct (Hfirst i reason Hi).
Qed.

Lemma clickAll_reports_lowest_index_witness :
  fst (PageElements.clickAll (Scenario.clicking [1; 2; 3; 4; 5]%nat [3; 5]%nat)
         Scenario.kw [])
  = Rejected (Error "点击元素失败: Error: 点击元素失败，索引: 2,StaleElementReferenceError: element 3 is stale").
Proof.
  refine (clickAll_reports_lowest_index
            (Scenario.clicking [1; 2; 3; 4; 5]%nat [3; 5]%nat) Scenario.kw []
            [1; 2; 3; 4; 5]%nat 2 (Scenario.stale 3%nat) _ _ _ _).
  - reflexivity.
  - intros j k Hjk Hk. unfold click_settles, at_click, clicks.
    cbn [settles_at Scenario.clicking].
    rewrite !length_app, !length_map, !length_firstn.
    cbn [List.length] in Hk |- *. lia.
  - exists 3%nat. split; reflexivity.
  - intros j reason' Hj (e & Hn & Hr).
    destruct j as [|[|j]]; [| |lia];
      cbn in Hn; injection Hn as <-; discriminate Hr.
Defined.

(** ** The example page *)

(** X12.  [search] types into the input [#kw] first: when the browser
    refuses the keys, [search] fails with the error of [sendKeys], which
    names that input and the failure, and nothing is sent for the button
    [#su1]. *)
Theorem search_stops_when_typing_fails
    (browser : Browser) (keyword : string) (s s1 s2 : Log)
    (elem : option WebElement) (reason : Thrown) :
  getElement browser (CSSPageElement.super examplePage.searchInput) s
  = (Resolved elem, s1) ->
  browser_action browser (SendKeys keyword) elem s1 = (Rejected reason, s2) ->
  exampleOptions.search browser keyword s
  = (Rejected (Error ("Failed to send keys to element: By(css selector, #kw)"
                      ++ nl ++ toString reason)), s2).
Proof.
  intros G B.
  unfold exampleOptions.search, bind, sendKeys, bind, try_catch.
  rewrite G. cbv beta iota.
  revert B. unfold browser_action, void, bind.
  destruct (method browser elem "sendKeys" (fun e => ElemSendKeys e keyword) s1)
    as [[u|t] s'] eqn:E; intros B; [discriminate B|].
  injection B as -> ->. reflexivity.
Qed.

Lemma search_stops_when_typing_fails_witness :
  exampleOptions.search read_only "rocq" []
  = (Rejected (Error ("Failed to send keys to element: By(css selector, #kw)"
                      ++ nl ++ "ElementNotInteractableError: element not interactable")),
     [ev (WaitElementLocated (By_css "#kw") 5000 (Some "找不到定位元素"));
      ev (WaitElementIsVisible (Some 7%nat) 5000 "Element is not visible: 找不到定位元素");
      ev (ElemSendKeys 7%nat "rocq")]).
Proof.
  refine (search_stops_when_typing_fails read_only "rocq" []
            [ev (WaitElementLocated (By_css "#kw") 5000 (Some "找不到定位元素"));
             ev (WaitElementIsVisible (Some 7%nat) 5000 "Element is not visible: 找不到定位元素")]
            _ (Some 7%nat)
            {| name := "ElementNotInteractableError";
               message := "element not interactable" |} _ _); reflexivity.
Defined.

(** * Properties of [truncateFilePath] *)

Lemma starts_with_inv (t s : string) :
  starts_with t s = true -> exists rest, s = t ++ rest.
Proof.
  revert s. induction t as [|a t IH]; intros s H.
  - now exists s.
  - destruct s as [|b s]; [discriminate|].
    cbn [starts_with] in H. apply andb_true_iff in H as [Hab Ht].
    apply Ascii.eqb_eq in Hab. subst b.
    destruct (IH s Ht) as [rest ->]. now exists rest.
Qed.

Lemma split_scan_skip (sep p rest piece : string) :
  stringUtil.split_scan sep (String.length p) (p ++ rest) piece
  = stringUtil.split_scan sep 0 rest piece.
Proof.
  induction p as [|c p IH]; [reflexivity|].
  cbn [String.length append stringUtil.split_scan]. exact IH.
Qed.

(** The scan with a separator that is not empty: either the separator
    does not occur and the only piece is everything read, or the last
    piece follows an occurrence of the separator and holds none. *)
Lemma split_scan_cases (c0 : ascii) (sep' : string) (n : nat) :
  let sep := String c0 sep' in
  forall (s piece : string),
    (String.length s <= n)%nat ->
    (includes sep s = false
     /\ stringUtil.split_scan sep 0 s piece = [piece ++ s])
    \/ (includes sep s = true
        /\ exists front pre r,
             stringUtil.split_scan sep 0 s piece = (front ++ [r])%list
             /\ front <> []
             /\ s = pre ++ sep ++ r
             /\ includes sep r = false).
Proof.
  intros sep. induction n as [|n IH]; intros s piece Hlen.
  - destruct s; [|cbn in Hlen; lia].
    left. split; [reflexivity|]. cbn. now rewrite string_app_nil_r.
  - destruct s as [|c s]; [left; split; [reflexivity|]; cbn; now rewrite string_app_nil_r|].
    cbn [stringUtil.split_scan includes].
    destruct (starts_with sep (String c s)) eqn:Hsw.
    + right. split; [reflexivity|].
      destruct (starts_with_inv _ _ Hsw) as [rest Hrest].
      unfold sep in Hrest. cbn [append] in Hrest.
      assert (Hc : c = c0) by congruence.
      assert (Hs' : s = sep' ++ rest) by congruence.
      subst c s. clear Hrest.
      change (String.length sep - 1)%nat with (String.length sep' - 0)%nat.
      rewrite Nat.sub_0_r, split_scan_skip.
      assert (Hl : (String.length rest <= n)%nat).
      { cbn [String.length] in Hlen. rewrite string_length_app in Hlen. lia. }
      destruct (IH rest EmptyString Hl) as [[Hno Hrun]|(Hyes & front & pre & r & Hrun & Hne & Hs & Hr)].
      * exists [piece], EmptyString, rest. rewrite Hrun.
        repeat split; auto. discriminate.
      * exists (piece :: front), (sep ++ pre), r. rewrite Hrun.
        repeat split; auto; [discriminate|].
        rewrite Hs. unfold sep. cbn [append]. now rewrite string_app_assoc.
    + cbn [orb].
      assert (Hl : (String.length s <= n)%nat) by (cbn [String.length] in Hlen; lia).
      destruct (IH s (piece ++ String c EmptyString) Hl)
        as [[Hno Hrun]|(Hyes & front & pre & r & Hrun & Hne & Hs & Hr)].
      * left. split; [exact Hno|]. rewrite Hrun, string_app_assoc. reflexivity.
      * right. split; [exact Hyes|].
        exists front, (String c pre), r. rewrite Hrun.
        repeat split; auto. rewrite Hs. reflexivity.
Qed.

Lemma at_index_last {A} (front : list A) (r : A) :
  at_index (front ++ [r]) (Z.of_nat (List.length (front ++ [r])) - 1) = Some r.
Proof.
  unfold at_index. rewrite length_app. cbn [List.length].
  replace (Z.of_nat (List.length front + 1) - 1 <? 0) with false
    by (symmetry; apply Z.ltb_ge; lia).
  replace (Z.to_nat (Z.of_nat (List.length front + 1) - 1))
    with (List.length front) by lia.
  rewrite nth_error_app2 by lia. now rewrite Nat.sub_diag.
Qed.

(** All the cases of [truncateFilePath]. *)
Lemma truncateFilePath_cases (filePath keyword : string) :
  (stringUtil.truncateFilePath filePath keyword
   = Rejected (Error "File path and keyword must be provided.")
   /\ (filePath = EmptyString \/ keyword = EmptyString))
  \/ (stringUtil.truncateFilePath filePath keyword
      = Rejected (Error "Keyword not found in the file path.")
      /\ filePath <> EmptyString /\ keyword <> EmptyString
      /\ includes keyword filePath = false)
  \/ (filePath <> EmptyString /\ keyword <> EmptyString
      /\ includes keyword filePath = true
      /\ exists pre suf,
           stringUtil.truncateFilePath filePath keyword = Resolved (Some suf)
           /\ filePath = pre ++ keyword ++ suf
           /\ includes keyword suf = false).
Proof.
  unfold stringUtil.truncateFilePath.
  destruct filePath as [|a p]; [left; split; [reflexivity | now left]|].
  destruct keyword as [|c0 sep']; [left; split; [reflexivity | now right]|].
  right. cbn [stringUtil.falsy orb stringUtil.split].
  destruct (split_scan_cases c0 sep' (String.length (String a p))
              (String a p) EmptyString (Nat.le_refl _))
    as [[Hno Hrun]|(Hyes & front & pre & r & Hrun & Hne & Hs & Hr)].
  - left. rewrite Hrun. cbn [List.length]. repeat split; try discriminate. exact Hno.
  - right. repeat split; try discriminate; [exact Hyes|].
    exists pre, r. rewrite Hrun.
    replace (Z.of_nat (List.length (front ++ [r])) =? 1) with false.
    + rewrite at_index_last. repeat split; auto.
    + symmetry. apply Z.eqb_neq. rewrite length_app. cbn [List.length].
      destruct front; [congruence | cbn [List.length]; lia].
Qed.

(** X13.  [truncateFilePath] throws its first error exactly when the path
    or the keyword is empty, its second error exactly when both are
    there and the keyword does not occur in the path, and returns exactly
    when both are there and the keyword occurs. *)
Theorem truncateFilePath_errors (filePath keyword : string) :
  (stringUtil.truncateFilePath filePath keyword
   = Rejected (Error "File path and keyword must be provided.")
   <-> filePath = EmptyString \/ keyword = EmptyString)
  /\ (stringUtil.truncateFilePath filePath keyword
      = Rejected (Error "Keyword not found in the file path.")
      <-> filePath <> EmptyString /\ keyword <> EmptyString
          /\ includes keyword filePath = false)
  /\ ((exists r, stringUtil.truncateFilePath filePath keyword = Resolved r)
      <-> filePath <> EmptyString /\ keyword <> EmptyString
          /\ includes keyword filePath = true).
Proof.
  destruct (truncateFilePath_cases filePath keyword)
    as [[E H]|[(E & Hp & Hk & Hi)|(Hp & Hk & Hi & pre & suf & E & _)]];
    rewrite E; (split; [|split]); split; intros F;
    try discriminate F; try reflexivity; try tauto;
    try (destruct F as [r F]; discriminate F);
    try (destruct F as (A & B & C); congruence);
    try (eexists; reflexivity).
Qed.

(** X14.  What [truncateFilePath] returns is never [undefined]: it is an
    end of the path that follows an occurrence of the keyword and in which
    the keyword does not occur. *)
Theorem truncateFilePath_result
    (filePath keyword : string) (r : option string) :
  stringUtil.truncateFilePath filePath keyword = Resolved r ->
  exists pre suf,
    r = Some suf
    /\ filePath = pre ++ keyword ++ suf
    /\ includes keyword suf = false.
Proof.
  intros R.
  destruct (truncateFilePath_cases filePath keyword)
    as [[E _]|[(E & _)|(_ & _ & _ & pre & suf & E & Hs & Hi)]];
    rewrite E in R; try discriminate R.
  injection R as <-. now exists pre, suf.
Qed.

Lemma truncateFilePath_result_witness :
  exists pre suf,
    Some "login.test.ts" = Some suf
    /\ "D:\work\tests\login.test.ts" = pre ++ "\" ++ suf
    /\ includes "\" suf = false.
Proof.
  refine (truncateFilePath_result "D:\work\tests\login.test.ts" "\"
            (Some "login.test.ts") _).
  reflexivity.
Defined.

Lemma includes_middle (t pre suf : string) :
  includes t (pre ++ t ++ suf) = true.
Proof. apply includes_app_r, includes_prefix. Qed.

(** With a keyword of one character, the end of the path behind an
    occurrence and free of the keyword is unique. *)
Lemma suffix_after_last_unique (c : ascii) (pre : string) :
  forall (pre' suf suf' : string),
    pre ++ String c suf = pre' ++ String c suf' ->
    includes (String c EmptyString) suf = false ->
    includes (String c EmptyString) suf' = false ->
    suf = suf'.
Proof.
  induction pre as [|d pre IH]; intros pre' suf suf' E Hs Hs'.
  - destruct pre' as [|d' pre']; cbn [append] in E.
    + congruence.
    + injection E as _ E. subst suf.
      change (String c suf') with (String c EmptyString ++ suf') in Hs.
      rewrite includes_middle in Hs. discriminate.
  - destruct pre' as [|d' pre']; cbn [append] in E.
    + injection E as _ E. subst suf'.
      change (String c suf) with (String c EmptyString ++ suf) in Hs'.
      rewrite includes_middle in Hs'. discriminate.
    + injection E as _ E. eauto.
Qed.

(** X15.  With a keyword of one character, as at the call of the report
    parser, [truncateFilePath] returns what follows the last occurrence
    of that character. *)
Theorem truncateFilePath_after_last
    (c : ascii) (pre suf : string) :
  includes (String c EmptyString) suf = false ->
  stringUtil.truncateFilePath (pre ++ String c suf) (String c EmptyString)
  = Resolved (Some suf).
Proof.
  intros Hsuf.
  destruct (truncateFilePath_cases (pre ++ String c suf) (String c EmptyString))
    as [[_ [H|H]]|[(_ & _ & _ & Hi)|(_ & _ & _ & pre' & suf' & E & Hs & Hi)]].
  - destruct pre; discriminate H.
  - discriminate H.
  - change (String c suf) with (String c EmptyString ++ suf) in Hi.
    rewrite includes_middle in Hi. discriminate.
  - rewrite E. cbn [append] in Hs.
    now rewrite (suffix_after_last_unique c pre pre' suf suf' Hs Hsuf Hi).
Qed.

Lemma truncateFilePath_after_last_witness :
  stringUtil.truncateFilePath "D:\work\tests\login.test.ts" "\"
  = Resolved (Some "login.test.ts").
Proof.
  refine (truncateFilePath_after_last "\"%char "D:\work\tests" "login.test.ts" _).
  reflexivity.
Defined.

(** * From the page to the browser *)

(** X16.  A page element found by id and built without a configuration
    waits once, 5000 ms, for [#id]: when that wait fails, resolution fails
    at once with the error that names the locator [By(css selector, #id)]
    and the default description. *)
Theorem findById_default_failure
    (browser : Browser) (id : string) (s : Log) (reason : Thrown) :
  respond browser _ s
    (WaitElementLocated (By_css ("#" ++ id)) 5000 (Some "找不到定位元素"))
  = Rejected reason ->
  getElement browser (CSSPageElement.super (Page.findById id None)) s
  = (Rejected (Error ("Failed to find element using "
                      ++ By_toString (By_css ("#" ++ id))
                      ++ ", describe: 找不到定位元素")),
     (s ++ [ev (WaitElementLocated (By_css ("#" ++ id)) 5000
                  (Some "找不到定位元素"))])%list).
Proof.
  intros E.
  set (this := CSSPageElement.super (Page.findById id None)).
  assert (Hr : retires_of this = 1) by reflexivity.
  unfold getElement.
  change (read (element (config this))) with (@None (MaybePromise WebElement)).
  unfold findElement, bind. rewrite Hr. change (Z.to_nat 1) with 1%nat.
  rewrite (locate_loop_exhausted browser this 1 0 s); [reflexivity | lia | lia |].
  intros j Hj. exists reason. replace j with 0%nat by lia.
  cbn [repeat]. rewrite app_nil_r. exact E.
Qed.

Lemma findById_default_failure_witness :
  getElement Scenario.never_located
    (CSSPageElement.super (Page.findById "su1" None)) []
  = (Rejected (Error "Failed to find element using By(css selector, #su1), describe: 找不到定位元素"),
     [ev (WaitElementLocated (By_css "#su1") 5000 (Some "找不到定位元素"))]).
Proof.
  refine (findById_default_failure Scenario.never_located "su1" []
            Scenario.timed_out _).
  reflexivity.
Defined.

(** X17.  After the resolution of its element, an action sends at most
    one command to the browser, and none when the resolution failed. *)
Theorem action_sends_one_command
    (browser : Browser) (this : PageElement) (a : Action) (s : Log) :
  exists sent : Log,
    snd (perform browser this a s)
    = (snd (getElement browser this s) ++ sent)%list
    /\ (List.length sent <= 1)%nat
    /\ match fst (getElement browser this s) with
       | Rejected _ => sent = []
       | Resolved _ => True
       end.
Proof.
  destruct (getElement browser this s) as [[elem|reason] s1] eqn:G; cbn [fst snd].
  - destruct a; unfold_actions; unfold bind, try_catch;
      rewrite G; cbv beta iota; unfold method, call;
      try (destruct elem as [e|];
           [|exists []; rewrite app_nil_r; repeat split; cbn; lia]);
      match goal with
      | |- context [respond browser ?A s1 ?c] =>
          exists [ev c]; destruct (respond browser A s1 c);
          repeat split; cbn; lia
      end.
  - exists []. rewrite app_nil_r.
    destruct a; unfold_actions; unfold bind; rewrite G; repeat split; cbn; lia.
Qed.

(** X18.  The configuration a page element stores has all five keys, and
    building a page element from a stored configuration stores the same
    configuration again. *)
Theorem stored_configuration_is_complete
    (l l' : Locator) (c : option PageElementConfiguration) :
  let stored := config (new_PageElement l c) in
  retires stored <> Absent
  /\ timeout stored <> Absent
  /\ describe stored <> Absent
  /\ index stored <> Absent
  /\ element stored <> Absent
  /\ config (new_PageElement l' (Some stored)) = stored.
Proof.
  destruct c as [[[|r] [|t] [|d] [|i] [|e]]|]; cbn;
    repeat split; discriminate.
Qed.
